(** * PersonalTaskManager.py: the Task record and the TaskManager store

    A shallow embedding of the classes [Task] and [TaskManager] of
    [PersonalTaskManager.py] (the persistence and query layer; the tkinter
    front end only calls into it), and the properties that the
    specification states about them.

    Modelling conventions.
    - A Python [str] is a [string]; a character is its code point, so the
      embedding covers the code points below 256.  Comparison of two [str]
      with [<] is lexicographic by code point, which is [String.compare].
    - The five attributes of a [Task] hold [str] values, as the data model
      fixes them and as the front end supplies them.  A backing file can
      hold other values; where a run would build a [Task] with an attribute
      that is not a [str], the embedding says so ([Untyped]) and follows the
      program no further.
    - A Python [list] is a mutable object: the world holds a heap of list
      objects, and a variable or attribute holding a list holds its
      location.  [Task] objects are never mutated by the program and are
      values.
    - [json.dump] and [json.load] belong to the standard library and are
      taken by their contract: the value that is written is the one that is
      read back.  A file therefore holds the text of a JSON value, of
      whatever shape, or text that [json.load] rejects, or bytes that are
      not text in the encoding of the file object.
    - The file system is a finite map from names to contents.  Opening a
      file for reading fails only when the name is absent, with
      [FileNotFoundError]; opening the backing file for writing succeeds,
      and a write replaces the content under the name.  The world also
      keeps the log of the writes, so that "a write took place" and "no
      write took place" can be told apart.
    - [uuid.uuid4] draws 16 bytes from the operating system; the world
      carries the sequence of these draws. *)

From Stdlib Require Import NArith Ascii String List Sorted Permutation Lia.
From stdpp Require Import base strings list gmap.

Local Open Scope string_scope.

(** ** Python strings *)

Module PyStr.

(** [str.lower] on one character: the upper-case letters below code point
    256 are A to Z and the letters from 192 to 222 other than the
    multiplication sign 215; each one has its lower-case form 32 further. *)
Definition lower_char (c : ascii) : ascii :=
  let n := N_of_ascii c in
  if (((65 <=? n) && (n <=? 90))
      || ((192 <=? n) && (n <=? 222) && negb (n =? 215)))%N
  then ascii_of_N (n + 32)
  else c.

(** [s.lower()] *)
Fixpoint lower (s : string) : string :=
  match s with
  | EmptyString => EmptyString
  | String c s' => String (lower_char c) (lower s')
  end.

(** [a in b] for two [str]: [a] occurs in [b] as a contiguous block. *)
Fixpoint contains (a b : string) : bool :=
  String.prefix a b
  || match b with
     | EmptyString => false
     | String _ b' => contains a b'
     end.

(** [bool(s)] for a [str]: only the empty string is false. *)
Definition truthy (s : string) : bool :=
  match s with
  | EmptyString => false
  | String _ _ => true
  end.

End PyStr.

(** ** [uuid.uuid4] and [str] of a UUID (standard library, [uuid.py]) *)

Module UUID.

(** [UUID(bytes=..., version=4)]: the variant bits are set to RFC 4122 and
    the version nibble to 4. *)
Definition set_version4 (r : N) : N :=
  let i1 := N.ldiff r (N.shiftl 0xc000 48) in
  let i2 := N.lor i1 (N.shiftl 0x8000 48) in
  let i3 := N.ldiff i2 (N.shiftl 0xf000 64) in
  N.lor i3 (N.shiftl 4 76).

Definition hex_digit (d : N) : ascii :=
  if (d <? 10)%N then ascii_of_N (48 + d) else ascii_of_N (87 + d).

(** ['%0kx' % n], for [n] below [16^k]: [k] digits, the most significant
    first. *)
Fixpoint hex_digits (k : nat) (n : N) : string :=
  match k with
  | O => EmptyString
  | S k' =>
      String (hex_digit (N.land (N.shiftr n (4 * N.of_nat k')) 15))
             (hex_digits k' n)
  end.

(** [UUID.__str__] *)
Definition to_str (i : N) : string :=
  let hex := hex_digits 32 i in
  String.substring 0 8 hex ++ "-" ++ String.substring 8 4 hex ++ "-"
  ++ String.substring 12 4 hex ++ "-" ++ String.substring 16 4 hex ++ "-"
  ++ String.substring 20 12 hex.

(** [str(uuid.uuid4())] for the 16 random bytes read as the integer [r]. *)
Definition uuid4_str (r : N) : string :=
  to_str (set_version4 (r mod 2 ^ 128)%N).

End UUID.

Local Open Scope list_scope.

(** ** The data model *)

(** [class Task]: five attributes. *)
Record Task := mkTask {
  id : string;
  name : string;
  description : string;
  priority : string;
  due_date : string
}.

#[local] Set Warnings "-register-all".

(** A value that [json.load] returns: [None], a [bool], an [int], a
    [float] (by the 64 bits of its IEEE 754 form), a [str], a [list], or a
    [dict], whose keys are [str] and differ from one another, by its items
    in insertion order. *)
Inductive json :=
  | JNull
  | JBool (b : bool)
  | JInt (n : Z)
  | JFloat (bits : N)
  | JString (s : string)
  | JArray (items : list json)
  | JObject (members : list (string * json)).

(** An element of the sequence that the backing file holds.  [to_dict]
    makes it a [dict] with the five keys and [str] values; a file that
    another hand wrote can have any value in its place. *)
Abbreviation record := json.

(** What a file holds: bytes that the file object cannot decode, text that
    [json.load] rejects with [JSONDecodeError], or the text of a JSON
    value. *)
Inductive content :=
  | Undecodable (bytes : list Byte.byte)
  | NotJSON (text : string)
  | JSON (value : json).

(** A document: the text of a JSON array, the form that [save_tasks]
    writes. *)
Definition Document (records : list record) : content :=
  JSON (JArray records).

(** The exceptions that the store's code can meet. *)
Inductive exn :=
  | FileNotFoundError
  | JSONDecodeError
  | UnicodeDecodeError
  | TypeError
  | KeyError (key : string).

(** What a call comes to: it returns a value, it raises an exception, or it
    returns with a [Task] one of whose attributes holds a value that is not
    a [str], which the data model above does not represent. *)
Inductive outcome (A : Type) :=
  | Return (a : A)
  | Raise (e : exn)
  | Untyped.
Arguments Return {A} a.
Arguments Raise {A} e.
Arguments Untyped {A}.

(** A location of a list object. *)
Definition loc := nat.

(** A completed [open(filename, "w")] with the document dumped into it. *)
Inductive event :=
  | Wrote (filename : string) (c : content).

(** The world the program runs in. *)
Record World := mkWorld {
  heap : loc -> list Task;          (* the list objects *)
  next_loc : loc;                   (* locations below it are allocated *)
  files : gmap string content;      (* the file system *)
  log : list event;                 (* the writes so far, the latest first *)
  urandom : nat -> N;               (* the draws of [os.urandom(16)] *)
  drawn : nat                       (* how many have been consumed *)
}.

(** [class TaskManager]: the object's two attributes.  [tasks] holds a
    list object. *)
Record TaskManager := mkTaskManager {
  filename : string;
  tasks : loc
}.

(** ** Computations *)

Definition M (A : Type) : Type := World -> A * World.

Global Instance M_ret : MRet M := fun A (a : A) w => (a, w).

Global Instance M_bind : MBind M :=
  fun A B (k : A -> M B) (m : M A) w => let (a, w') := m w in k a w'.

(** *** List objects *)

(** A new list object with the elements [v]. *)
Definition list_new (v : list Task) : M loc :=
  fun w =>
    let l := next_loc w in
    (l, mkWorld (fun l' => if decide (l' = l) then v else heap w l')
                (S l) (files w) (log w) (urandom w) (drawn w)).

Definition list_write (l : loc) (v : list Task) : M unit :=
  fun w =>
    (tt, mkWorld (fun l' => if decide (l' = l) then v else heap w l')
                 (next_loc w) (files w) (log w) (urandom w) (drawn w)).

Definition list_read (l : loc) : M (list Task) :=
  fun w => (heap w l, w).

(** [l.append(t)] *)
Definition list_append (l : loc) (t : Task) : M unit :=
  v ← list_read l; list_write l (v ++ [t]).

(** [l[i] = t], for an index within the list. *)
Definition list_setitem (l : loc) (i : nat) (t : Task) : M unit :=
  v ← list_read l; list_write l (<[i := t]> v).

(** *** Files *)

(** [open(filename, "r")]: the file object, by what the file holds. *)
Definition open_read (f : string) : M (outcome content) :=
  fun w =>
    match files w !! f with
    | None => (Raise FileNotFoundError, w)
    | Some c => (Return c, w)
    end.

(** [json.load(file)]: it reads the file, which decodes the bytes, and
    parses the text. *)
Definition json_load (c : content) : outcome json :=
  match c with
  | Undecodable _ => Raise UnicodeDecodeError
  | NotJSON _ => Raise JSONDecodeError
  | JSON value => Return value
  end.

(** [with open(filename, "w") as file: json.dump(doc, file, indent=4)] *)
Definition write_json (f : string) (doc : list record) : M unit :=
  fun w =>
    (tt, mkWorld (heap w) (next_loc w) (<[f := Document doc]> (files w))
                 (Wrote f (Document doc) :: log w) (urandom w) (drawn w)).

(** *** Random identifiers *)

(** [str(uuid.uuid4())] *)
Definition uuid4 : M string :=
  fun w =>
    (UUID.uuid4_str (urandom w (drawn w)),
     mkWorld (heap w) (next_loc w) (files w) (log w) (urandom w)
             (S (drawn w))).

(** *** Exceptions *)

Global Instance outcome_ret : MRet outcome := fun A (a : A) => Return a.

Global Instance outcome_bind : MBind outcome :=
  fun A B (k : A -> outcome B) (o : outcome A) =>
    match o with
    | Return a => k a
    | Raise e => Raise e
    | Untyped => Untyped
    end.

(** ** Python values read from a file *)

Module PyVal.

(** [bool(v)]: [None], [False], a zero, and an empty [str], [list] or
    [dict] are false.  A [float] is zero when the bits after the sign are
    all zero. *)
Definition truthy (v : json) : bool :=
  match v with
  | JNull => false
  | JBool b => b
  | JInt n => negb (n =? 0)%Z
  | JFloat bits => negb (bits mod 2 ^ 63 =? 0)%N
  | JString s => PyStr.truthy s
  | JArray items => match items with [] => false | _ :: _ => true end
  | JObject members => match members with [] => false | _ :: _ => true end
  end.

(** The value, when it is a [str]. *)
Definition as_str (v : json) : option string :=
  match v with
  | JString s => Some s
  | _ => None
  end.

(** The characters of a [str], each one a [str] of length one. *)
Fixpoint chars (s : string) : list json :=
  match s with
  | EmptyString => []
  | String c s' => JString (String c EmptyString) :: chars s'
  end.

(** [for x in v], run to the end: a [list] yields its elements, a [dict]
    its keys and a [str] its characters; the other values are not
    iterable. *)
Definition iter (v : json) : outcome (list json) :=
  match v with
  | JArray items => Return items
  | JObject members => Return (map (fun kv => JString kv.1) members)
  | JString s => Return (chars s)
  | JNull | JBool _ | JInt _ | JFloat _ => Raise TypeError
  end.

End PyVal.

(** ** [class Task] *)

(** [Task.__init__]: [self.id = task_id or str(uuid.uuid4())].  The
    argument [task_id] is [None] (also when it is left out) or a [str];
    [or] yields its left operand when that is true and evaluates the right
    one otherwise. *)
Definition Task_init (name description priority due_date : string)
    (task_id : option string) : M Task :=
  i ← match task_id with
      | Some s => if PyStr.truthy s then mret s else uuid4
      | None => uuid4
      end;
  mret (mkTask i name description priority due_date).

(** [Task.to_dict] *)
Definition to_dict (self : Task) : record :=
  JObject
    [("id", JString (id self)); ("name", JString (name self));
     ("description", JString (description self));
     ("priority", JString (priority self));
     ("due_date", JString (due_date self))].

(** The names of the data attributes of a [Task], the keys by which the
    store sorts. *)
Inductive attr := a_id | a_name | a_description | a_priority | a_due_date.

Definition attr_name (a : attr) : string :=
  match a with
  | a_id => "id"
  | a_name => "name"
  | a_description => "description"
  | a_priority => "priority"
  | a_due_date => "due_date"
  end.

(** [getattr(task, key)] for the name of a data attribute. *)
Definition getattr (task : Task) (key : attr) : string :=
  match key with
  | a_id => id task
  | a_name => name task
  | a_description => description task
  | a_priority => priority task
  | a_due_date => due_date task
  end.

(** ** [sorted(iterable, key=...)]

    Python's [sorted] is stable and orders the elements by [<] on their
    keys.  For keys that are strings the order is total, so the outcome is
    the same for every stable sorting algorithm ([sorted_unique] below); it
    is computed here by insertion, each element going in front of the
    elements after it whose key is not smaller. *)
Section Sorted.
Context {A : Type} (key : A -> string).

Fixpoint insert_by (x : A) (l : list A) : list A :=
  match l with
  | [] => [x]
  | y :: l' =>
      if String.ltb (key y) (key x) then y :: insert_by x l' else x :: l
  end.

Definition sorted (l : list A) : list A := foldr insert_by [] l.
End Sorted.

(** ** [class TaskManager] *)

(** [d[key]] on a [dict], by its items. *)
Fixpoint item_get (members : list (string * json)) (key : string)
    : outcome json :=
  match members with
  | [] => Raise (KeyError key)
  | (k, v) :: members' =>
      if String.eqb k key then Return v else item_get members' key
  end.

(** [task[key]] for a key that is a [str]: a [dict] looks the key up; a
    [list] and a [str] take integers and slices only, and the other values
    have no subscript. *)
Definition dict_get (d : record) (key : string) : outcome json :=
  match d with
  | JObject members => item_get members key
  | _ => Raise TypeError
  end.

(** The argument [task_id] of [Task.__init__] for a value read under
    "id", when the [id] that results is a [str]: [__init__] looks at the
    truth value of [task_id] only, so that a value that is false is
    replaced as [None] is; a value that is true and is not a [str] would be
    stored as it is. *)
Definition typed_task_id (i : json) : option (option string) :=
  match i with
  | JString s => Some (Some s)
  | _ => if PyVal.truthy i then None else Some None
  end.

(** The call [Task(name=n, description=d, priority=p, due_date=du,
    task_id=i)] on values read from a file.  [Task.__init__] stores the
    first four arguments as they are; a call that stores a value that is
    not a [str] is [Untyped], and draws its identifier all the same when
    [task_id] is false. *)
Definition Task_of_values (n d p du i : json) : M (outcome Task) :=
  match PyVal.as_str n, PyVal.as_str d, PyVal.as_str p, PyVal.as_str du,
        typed_task_id i with
  | Some n, Some d, Some p, Some du, Some task_id =>
      t ← Task_init n d p du task_id; mret (Return t)
  | _, _, _, _, _ =>
      (if PyVal.truthy i then mret "" else uuid4);; mret Untyped
  end.

(** One step of the comprehension in [load_tasks]: the five subscripts in
    the order of the keyword arguments, then the constructor. *)
Definition task_of_record (task : record) : M (outcome Task) :=
  let args :=
    n ← dict_get task "name";
    d ← dict_get task "description";
    p ← dict_get task "priority";
    du ← dict_get task "due_date";
    i ← dict_get task "id";
    mret (n, d, p, du, i) in
  match args with
  | Raise e => mret (Raise e)
  | Untyped => mret Untyped
  | Return (n, d, p, du, i) => Task_of_values n d p du i
  end.

(** [[Task(...) for task in data]], for the elements that the iteration
    over [data] yields.  An exception ends the comprehension, also after an
    element that gave a task. *)
Fixpoint tasks_of_records (data : list record) : M (outcome (list Task)) :=
  match data with
  | [] => mret (Return [])
  | task :: data' =>
      o ← task_of_record task;
      match o with
      | Raise e => mret (Raise e)
      | Return t =>
          os ← tasks_of_records data';
          match os with
          | Raise e => mret (Raise e)
          | Return ts => mret (Return (t :: ts))
          | Untyped => mret Untyped
          end
      | Untyped =>
          os ← tasks_of_records data';
          match os with
          | Raise e => mret (Raise e)
          | Return _ | Untyped => mret Untyped
          end
      end
  end.

(** [TaskManager.load_tasks], for [self.filename = filename]: the body of
    the [try], then the [except] clause, which catches the two named
    exceptions and lets any other pass.  Each [return] builds a new list
    object. *)
Definition load_tasks (filename : string) : M (outcome loc) :=
  body ← (o ← open_read filename;
          match o with
          | Raise e => mret (Raise e)
          | Untyped => mret Untyped
          | Return c =>
              match data ← json_load c; PyVal.iter data with
              | Raise e => mret (Raise e)
              | Untyped => mret Untyped
              | Return data => tasks_of_records data
              end
          end);
  match body with
  | Return ts => l ← list_new ts; mret (Return l)
  | Raise FileNotFoundError | Raise JSONDecodeError =>
      l ← list_new []; mret (Return l)
  | Raise e => mret (Raise e)
  | Untyped => mret Untyped
  end.

(** [TaskManager.__init__] *)
Definition TaskManager_init (filename : string) : M (outcome TaskManager) :=
  o ← load_tasks filename;
  match o with
  | Return l => mret (Return (mkTaskManager filename l))
  | Raise e => mret (Raise e)
  | Untyped => mret Untyped
  end.

(** [TaskManager.save_tasks] *)
Definition save_tasks (self : TaskManager) : M unit :=
  ts ← list_read (tasks self);
  write_json (filename self) (map to_dict ts).

(** [TaskManager.add_task] *)
Definition add_task (self : TaskManager) (task : Task) : M unit :=
  list_append (tasks self) task;;
  save_tasks self.

(** The loop of [update_task] over [enumerate(self.tasks)]: [i] is the
    index of the head of [rest]. *)
Fixpoint update_loop (self : TaskManager) (task_id : string)
    (updated_task : Task) (i : nat) (rest : list Task) : M bool :=
  match rest with
  | [] => mret false
  | task :: rest' =>
      if String.eqb (id task) task_id then
        list_setitem (tasks self) i updated_task;;
        save_tasks self;;
        mret true
      else update_loop self task_id updated_task (S i) rest'
  end.

(** [TaskManager.update_task] *)
Definition update_task (self : TaskManager) (task_id : string)
    (updated_task : Task) : M bool :=
  ts ← list_read (tasks self);
  update_loop self task_id updated_task 0 ts.

(** [TaskManager.delete_task].  The assignment [self.tasks = [...]] binds
    the attribute to a new list object: the method yields the object with
    its attribute rebound. *)
Definition delete_task (self : TaskManager) (task_id : string)
    : M TaskManager :=
  ts ← list_read (tasks self);
  l ← list_new (List.filter (fun task => negb (String.eqb (id task) task_id)) ts);
  let self' := mkTaskManager (filename self) l in
  save_tasks self';;
  mret self'.

(** The three tests of [filter_tasks] on one task. *)
Definition name_test (name_filter : string) (t : Task) : bool :=
  PyStr.contains (PyStr.lower name_filter) (PyStr.lower (name t)).

Definition priority_test (priority_filter : string) (t : Task) : bool :=
  String.eqb (priority t) priority_filter.

Definition due_date_test (due_date_filter : string) (t : Task) : bool :=
  String.eqb (due_date t) due_date_filter.

(** One guarded narrowing step of [filter_tasks]:
    [if cond: filtered = [t for t in filtered if test(t)]]. *)
Definition narrow (cond : bool) (test : Task -> bool) (filtered : loc)
    : M loc :=
  if cond then
    ts ← list_read filtered;
    list_new (List.filter test ts)
  else mret filtered.

(** [TaskManager.filter_tasks].  [filtered = self.tasks] binds the
    variable to the store's own list object. *)
Definition filter_tasks (self : TaskManager)
    (name_filter priority_filter due_date_filter : string) : M loc :=
  let filtered := tasks self in
  filtered ← narrow (PyStr.truthy name_filter)
                    (name_test name_filter) filtered;
  filtered ← narrow (negb (String.eqb priority_filter "All"))
                    (priority_test priority_filter) filtered;
  filtered ← narrow (PyStr.truthy due_date_filter)
                    (due_date_test due_date_filter) filtered;
  mret filtered.

(** [TaskManager.sort_tasks] *)
Definition sort_tasks (self : TaskManager) (key : attr) : M loc :=
  ts ← list_read (tasks self);
  list_new (sorted (fun task => getattr task key) ts).

(** The sequence that a store holds in a world. *)
Definition tasks_of (w : World) (self : TaskManager) : list Task :=
  heap w (tasks self).

(** * The vocabulary of the statements *)

(** ** Sample data, used where a statement is tried on a concrete store *)

Definition buy_milk : Task := mkTask "1" "Buy milk" "" "High" "2024-01-01".
Definition pay_rent : Task := mkTask "2" "Pay rent" "" "Low" "2024-01-05".
Definition call_mum : Task := mkTask "3" "Call Mum" "" "Medium" "2024-01-03".

(** A world with one list object, holding [ts], and no file. *)
Definition world_with (ts : list Task) : World :=
  mkWorld (fun l => if decide (l = 0) then ts else []) 1 ∅ []
          (fun n => N.of_nat n) 0.

(** A world with no list object and the one file [f], holding [c]. *)
Definition world_with_file (f : string) (c : content) : World :=
  mkWorld (fun _ => []) 0 {[f := c]} [] (fun n => N.of_nat n) 0.

Definition store0 : TaskManager := mkTaskManager "tasks.json" 0.

(** ** The criteria of [filter_tasks], one by one *)

(** The three narrowing steps of [filter_tasks], named, so that they can be
    run in another order than the one of the source. *)
Inductive criterion := by_name | by_priority | by_due_date.

(** The step of [filter_tasks] for one criterion, with its guard. *)
Definition narrow_by (n p d : string) (c : criterion) (filtered : loc)
    : M loc :=
  match c with
  | by_name => narrow (PyStr.truthy n) (name_test n) filtered
  | by_priority =>
      narrow (negb (String.eqb p "All")) (priority_test p) filtered
  | by_due_date => narrow (PyStr.truthy d) (due_date_test d) filtered
  end.

(** The steps for the criteria [cs], one after the other, from the list
    object [filtered].  [filter_tasks] is the order name, priority, due
    date ([filter_tasks_in_order]). *)
Fixpoint narrow_in_order (n p d : string) (cs : list criterion)
    (filtered : loc) : M loc :=
  match cs with
  | [] => mret filtered
  | c :: cs' =>
      filtered ← narrow_by n p d c filtered;
      narrow_in_order n p d cs' filtered
  end.

(** A task passes a criterion when the criterion is not supplied or its
    test holds. *)
Definition passes (n p d : string) (t : Task) (c : criterion) : bool :=
  match c with
  | by_name => negb (PyStr.truthy n) || name_test n t
  | by_priority => String.eqb p "All" || priority_test p t
  | by_due_date => negb (PyStr.truthy d) || due_date_test d t
  end.

(** A task passes the three criteria together. *)
Definition matches (n p d : string) (t : Task) : bool :=
  passes n p d t by_name && passes n p d t by_priority
  && passes n p d t by_due_date.

(** [a] occurs in [b]: [b] is some string, then [a], then some string. *)
Definition is_substring (a b : string) : Prop :=
  ∃ pre post, b = pre +:+ a +:+ post.

(** ** The order that [sorted] works with *)

(** [a] does not come after [b] by key: [not (key(b) < key(a))]. *)
Definition key_le {A : Type} (key : A → string) (a b : A) : Prop :=
  String.le (key a) (key b).

(** The elements that have the key [k], in the order of the list. *)
Definition with_key {A : Type} (key : A → string) (k : string)
    (l : list A) : list A :=
  List.filter (fun a => String.eqb (key a) k) l.

(** [l'] is a stable sorting of [l] by [key]: it is in non-decreasing order
    of the keys, and for each key it holds the elements of [l] with that
    key in the order that [l] has them. *)
Definition stable_sorting {A : Type} (key : A → string) (l l' : list A)
    : Prop :=
  StronglySorted (key_le key) l' ∧ ∀ k, with_key key k l' = with_key key k l.

(** ** Identifiers and records *)

(** The values of the argument [task_id] that Python takes as false:
    [None] and the empty string. *)
Definition falsy (task_id : option string) : bool :=
  match task_id with
  | None => true
  | Some s => negb (PyStr.truthy s)
  end.

(** A task that the constructor built, from some arguments in some world.
    The program has no other way to make a [Task]. *)
Definition constructed (t : Task) : Prop :=
  ∃ n d p du tid w, (Task_init n d p du tid w).1 = t.

(** The keys that [load_tasks] reads in a record. *)
Definition task_keys : list string :=
  ["name"; "description"; "priority"; "due_date"; "id"].

(** The [dict] with the given keys and [str] values, in this order. *)
Definition dict (items : list (string * string)) : record :=
  JObject (map (fun kv => (kv.1, JString kv.2)) items).

(** A [dict], of whatever keys and values. *)
Definition is_dict (v : json) : Prop := ∃ members, v = JObject members.

(** [None], a [bool] or a number: a value that a [for] cannot run over. *)
Definition not_iterable (v : json) : Prop :=
  match v with
  | JNull | JBool _ | JInt _ | JFloat _ => True
  | JString _ | JArray _ | JObject _ => False
  end.

(** A record of the backing file's format: it has the five keys. *)
Definition has_task_keys (r : record) : Prop :=
  ∀ k, k ∈ task_keys → ∃ v, dict_get r k = Return v.

(** A record that lacks one of the five keys. *)
Definition lacks_task_key (r : record) : Prop :=
  ∃ k, k ∈ task_keys ∧ dict_get r k = Raise (KeyError k).

(** A record whose values fit the attributes of a [Task]: a [str] under
    each key other than "id", and under "id" a [str] or a value that Python
    takes as false. *)
Definition holds_strs (r : record) : Prop :=
  (∀ k, k ∈ ["name"; "description"; "priority"; "due_date"] →
     ∃ s, dict_get r k = Return (JString s))
  ∧ ∃ v, dict_get r "id" = Return v
         ∧ ((∃ s, v = JString s) ∨ PyVal.truthy v = false).

(** The task [t] is the record [r] deserialized in the world [w]: the
    attributes are the values under the keys, except that a value under
    "id" that Python takes as false, the empty string among them, is
    replaced by an identifier drawn in [w]. *)
Definition deserialized (w : World) (r : record) (t : Task) : Prop :=
  dict_get r "name" = Return (JString (name t))
  ∧ dict_get r "description" = Return (JString (description t))
  ∧ dict_get r "priority" = Return (JString (priority t))
  ∧ dict_get r "due_date" = Return (JString (due_date t))
  ∧ (dict_get r "id" = Return (JString (id t))
     ∨ (∃ v, dict_get r "id" = Return v ∧ PyVal.truthy v = false)
       ∧ ∃ k, id t = UUID.uuid4_str (urandom w k)).

(** The second world differs from the first at most in the number of
    random draws consumed. *)
Definition only_drawn (w w' : World) : Prop :=
  heap w' = heap w ∧ next_loc w' = next_loc w ∧ files w' = files w
  ∧ log w' = log w ∧ urandom w' = urandom w ∧ (drawn w ≤ drawn w')%nat.

(** A new store constructed in the world [w] on the file of the store [s]
    holds the sequence that [s] holds in [w]. *)
Definition reloads_equal (w : World) (s : TaskManager) : Prop :=
  ∃ s', (TaskManager_init (filename s) w).1 = Return s'
        ∧ tasks_of (TaskManager_init (filename s) w).2 s' = tasks_of w s.

(** ** Identifiers within a store *)

(** No two tasks of the sequence have the same [id]. *)
Definition unique_ids (ts : list Task) : Prop := NoDup (map id ts).

(** ** Calendar dates written as YYYY-MM-DD *)

(** The decimal digit [d], below 10, as a character. *)
Definition digit_char (d : nat) : ascii := ascii_of_nat (48 + d).

(** The number [n], below [10 ^ k], written with [k] decimal digits, zeros
    in front. *)
Fixpoint decimal (k n : nat) : string :=
  match k with
  | O => EmptyString
  | S k' => String (digit_char (n / 10 ^ k')) (decimal k' (n mod 10 ^ k'))
  end.

(** A year, a month and a day. *)
Definition date : Type := nat * nat * nat.

(** The date written as YYYY-MM-DD, the form that the front end asks
    for. *)
Definition iso_date (dt : date) : string :=
  let '(y, m, d) := dt in
  decimal 4 y +:+ "-" +:+ decimal 2 m +:+ "-" +:+ decimal 2 d.

(** The numbers of a date are within what the form YYYY-MM-DD can hold. *)
Definition fits_iso (dt : date) : Prop :=
  let '(y, m, d) := dt in y < 10 ^ 4 ∧ m < 10 ^ 2 ∧ d < 10 ^ 2.

(** The first date is not after the second. *)
Definition not_after (a b : date) : Prop :=
  let '(y, m, d) := a in
  let '(y', m', d') := b in
  y < y' ∨ (y = y' ∧ (m < m' ∨ (m = m' ∧ (d ≤ d')%nat))).

(** * The front end: [class TaskGUI]

    The widgets are taken by what they hold: an [Entry] and a [Combobox]
    hold a string, the [Treeview] holds its rows in order, and the calls of
    [messagebox.showerror] are kept in a list, the latest first.
    [datetime.strptime(s, "%Y-%m-%d")] belongs to the standard library and
    is a parameter, [date_ok]: whether the call returns for [s] (it raises
    [ValueError] otherwise).  [get_selected_id] reads a value of the
    selected row back through tkinter and is not embedded: what it returns
    is a parameter of the methods that call it, as is the answer to
    [messagebox.askyesno]. *)

Module GUI.

(** A row of the [Treeview]: the values of the five columns and the
    tags. *)
Record row := mkRow {
  values : list string;
  tags : list string
}.

(** A call of [messagebox.showerror(title, message)]. *)
Inductive dialog :=
  | ShowError (title message : string).

(** The object's widgets, its store and the dialogs shown so far. *)
Record TaskGUI := mkTaskGUI {
  manager : TaskManager;
  name_entry : string;
  desc_entry : string;
  prio_cb_add : string;
  date_entry : string;
  tree : list row;
  search_entry : string;
  priority_cb : string;
  due_entry : string;
  dialogs : list dialog
}.

Definition set_name_entry (v : string) (g : TaskGUI) : TaskGUI :=
  mkTaskGUI (manager g) v (desc_entry g) (prio_cb_add g) (date_entry g)
    (tree g) (search_entry g) (priority_cb g) (due_entry g) (dialogs g).

Definition set_desc_entry (v : string) (g : TaskGUI) : TaskGUI :=
  mkTaskGUI (manager g) (name_entry g) v (prio_cb_add g) (date_entry g)
    (tree g) (search_entry g) (priority_cb g) (due_entry g) (dialogs g).

Definition set_prio_cb_add (v : string) (g : TaskGUI) : TaskGUI :=
  mkTaskGUI (manager g) (name_entry g) (desc_entry g) v (date_entry g)
    (tree g) (search_entry g) (priority_cb g) (due_entry g) (dialogs g).

Definition set_date_entry (v : string) (g : TaskGUI) : TaskGUI :=
  mkTaskGUI (manager g) (name_entry g) (desc_entry g) (prio_cb_add g) v
    (tree g) (search_entry g) (priority_cb g) (due_entry g) (dialogs g).

Definition set_tree (v : list row) (g : TaskGUI) : TaskGUI :=
  mkTaskGUI (manager g) (name_entry g) (desc_entry g) (prio_cb_add g)
    (date_entry g) v (search_entry g) (priority_cb g) (due_entry g)
    (dialogs g).

(** [messagebox.showerror(title, message)] *)
Definition showerror (title message : string) (g : TaskGUI) : TaskGUI :=
  mkTaskGUI (manager g) (name_entry g) (desc_entry g) (prio_cb_add g)
    (date_entry g) (tree g) (search_entry g) (priority_cb g) (due_entry g)
    (ShowError title message :: dialogs g).

(** [entry.delete(0, tk.END)] on an entry that holds [text]. *)
Definition Entry_delete_all (text : string) : string := "".

(** [entry.insert(0, s)] on an entry that holds [text]. *)
Definition Entry_insert_0 (s text : string) : string := s +:+ text.

(** [s.replace(old, new)] for one-character [old] and [new]. *)
Fixpoint replace_char (old new : ascii) (s : string) : string :=
  match s with
  | EmptyString => EmptyString
  | String c s' =>
      String (if Ascii.eqb c old then new else c) (replace_char old new s')
  end.

(** The data attribute that a string names, if it names one. *)
Definition attr_of_name (s : string) : option attr :=
  List.find (fun a => String.eqb (attr_name a) s)
    [a_id; a_name; a_description; a_priority; a_due_date].

(** The row that [load_table] inserts for a task:
    [values=(task.id, task.name, task.description, task.priority,
    task.due_date), tags=(task.priority.lower(),)]. *)
Definition row_of (task : Task) : row :=
  mkRow [id task; name task; description task; priority task; due_date task]
        [PyStr.lower (priority task)].

(** [TaskGUI.load_table].  The argument is [None] or a list object;
    [tasks or self.manager.tasks] is the argument when it is a list that is
    not empty, and the store's list otherwise.  The first loop deletes
    every row, the second inserts a row at the end for each task. *)
Definition load_table (self : TaskGUI) (given : option loc) : M TaskGUI :=
  let self := set_tree [] self in
  shown ← match given with
          | Some l =>
              ts ← list_read l;
              match ts with
              | [] => mret (tasks (manager self))
              | _ :: _ => mret l
              end
          | None => mret (tasks (manager self))
          end;
  ts ← list_read shown;
  mret (foldl (fun g task => set_tree (tree g ++ [row_of task]) g) self ts).

(** [TaskGUI.apply_filters] *)
Definition apply_filters (date_ok : string → bool) (self : TaskGUI)
    : M TaskGUI :=
  let name := search_entry self in
  let priority := priority_cb self in
  let due_date := due_entry self in
  if PyStr.truthy due_date && negb (date_ok due_date) then
    mret (showerror "Filter Error"
            "Due date filter must be in YYYY-MM-DD format." self)
  else
    filtered ← filter_tasks (manager self) name priority due_date;
    load_table self (Some filtered).

(** [TaskGUI.sort_by_column].  The result is [None] when [col_key] does not
    name one of the five data attributes: [getattr] on such a name is
    outside the embedding. *)
Definition sort_by_column (self : TaskGUI) (column : string)
    : M (option TaskGUI) :=
  let col_key := replace_char " " "_" (PyStr.lower column) in
  match attr_of_name col_key with
  | Some key =>
      sorted_tasks ← sort_tasks (manager self) key;
      self ← load_table self (Some sorted_tasks);
      mret (Some self)
  | None => mret None
  end.

(** [TaskGUI.clear_name_placeholder]; [focus()] changes no text. *)
Definition clear_name_placeholder (self : TaskGUI) : TaskGUI :=
  if String.eqb (name_entry self) "Task Name"
  then set_name_entry (Entry_delete_all (name_entry self)) self
  else self.

(** [TaskGUI.reset_name_placeholder] *)
Definition reset_name_placeholder (self : TaskGUI) : TaskGUI :=
  if String.eqb (name_entry self) ""
  then set_name_entry (Entry_insert_0 "Task Name" (name_entry self)) self
  else self.

(** [TaskGUI.clear_desc_placeholder] *)
Definition clear_desc_placeholder (self : TaskGUI) : TaskGUI :=
  if String.eqb (desc_entry self) "Description"
  then set_desc_entry (Entry_delete_all (desc_entry self)) self
  else self.

(** [TaskGUI.reset_desc_placeholder] *)
Definition reset_desc_placeholder (self : TaskGUI) : TaskGUI :=
  if String.eqb (desc_entry self) ""
  then set_desc_entry (Entry_insert_0 "Description" (desc_entry self)) self
  else self.

(** [TaskGUI.clear_date_placeholder] *)
Definition clear_date_placeholder (self : TaskGUI) : TaskGUI :=
  if String.eqb (date_entry self) "YYYY-MM-DD"
  then set_date_entry (Entry_delete_all (date_entry self)) self
  else self.

(** [TaskGUI.reset_date_placeholder] *)
Definition reset_date_placeholder (self : TaskGUI) : TaskGUI :=
  if String.eqb (date_entry self) ""
  then set_date_entry (Entry_insert_0 "YYYY-MM-DD" (date_entry self)) self
  else self.

(** [TaskGUI.clear_add_fields] *)
Definition clear_add_fields (self : TaskGUI) : TaskGUI :=
  let self := set_name_entry (Entry_delete_all (name_entry self)) self in
  let self := set_desc_entry (Entry_delete_all (desc_entry self)) self in
  let self := set_date_entry (Entry_delete_all (date_entry self)) self in
  let self := reset_name_placeholder self in
  let self := reset_desc_placeholder self in
  let self := reset_date_placeholder self in
  set_prio_cb_add "Medium" self.

(** [TaskGUI.add_task] *)
Definition add_task (date_ok : string → bool) (self : TaskGUI) : M TaskGUI :=
  let name := name_entry self in
  let description := desc_entry self in
  let priority := prio_cb_add self in
  let due_date := date_entry self in
  if negb (PyStr.truthy name) || String.eqb name "Task Name"
     || negb (PyStr.truthy due_date) || String.eqb due_date "YYYY-MM-DD"
  then
    mret (showerror "Missing Info" "Task name and due date are required."
            self)
  else if negb (PyStr.truthy priority) then
    mret (showerror "Missing Info" "Priority is required." self)
  else if negb (date_ok due_date) then
    mret (showerror "Date Error" "Enter date in %Y-%m-%d format." self)
  else
    task ← Task_init name description priority due_date None;
    add_task (manager self) task;;
    self ← load_table self None;
    mret (clear_add_fields self).


Definition set_manager (v : TaskManager) (g : TaskGUI) : TaskGUI :=
  mkTaskGUI v (name_entry g) (desc_entry g) (prio_cb_add g) (date_entry g)
    (tree g) (search_entry g) (priority_cb g) (due_entry g) (dialogs g).

(** The methods below start with [selected_id = self.get_selected_id()],
    which reads the first value of the selected row back from the
    [Treeview].  That value is their parameter [selected_id]: [None] when
    no row is selected, or the string that tkinter gives back. *)

(** The loop of [populate_fields_from_selection] over [self.manager.tasks],
    up to its [break]. *)
Fixpoint populate_loop (selected_id : string) (rest : list Task)
    (self : TaskGUI) : TaskGUI :=
  match rest with
  | [] => self
  | task :: rest' =>
      if String.eqb (id task) selected_id then
        let self :=
          set_name_entry
            (Entry_insert_0 (name task) (Entry_delete_all (name_entry self)))
            self in
        let self :=
          set_desc_entry
            (Entry_insert_0 (description task)
               (Entry_delete_all (desc_entry self)))
            self in
        let self := set_prio_cb_add (priority task) self in
        set_date_entry
          (Entry_insert_0 (due_date task) (Entry_delete_all (date_entry self)))
          self
      else populate_loop selected_id rest' self
  end.

(** [TaskGUI.populate_fields_from_selection] *)
Definition populate_fields_from_selection (selected_id : option string)
    (self : TaskGUI) : M TaskGUI :=
  if falsy selected_id then mret self
  else
    ts ← list_read (tasks (manager self));
    mret (populate_loop (default "" selected_id) ts self).

(** [TaskGUI.edit_task] *)
Definition edit_task (date_ok : string → bool)
    (selected_id : option string) (self : TaskGUI) : M TaskGUI :=
  if falsy selected_id then
    mret (showerror "Select Task" "Please select a task to edit." self)
  else
    let name := name_entry self in
    let description := desc_entry self in
    let priority := prio_cb_add self in
    let due_date := date_entry self in
    if negb (PyStr.truthy name) || String.eqb name "Task Name"
       || negb (PyStr.truthy due_date) || String.eqb due_date "YYYY-MM-DD"
    then
      mret (showerror "Missing Info" "Task name and due date are required."
              self)
    else if negb (PyStr.truthy priority) then
      mret (showerror "Missing Info" "Priority is required." self)
    else if negb (date_ok due_date) then
      mret (showerror "Date Error" "Enter date in %Y-%m-%d format." self)
    else
      updated_task ← Task_init name description priority due_date selected_id;
      ok ← update_task (manager self) (default "" selected_id) updated_task;
      match ok with
      | true =>
          self ← load_table self None;
          mret (clear_add_fields self)
      | false => mret (showerror "Error" "Could not update task." self)
      end.

(** [TaskGUI.delete_task]; [confirm] is the answer that
    [messagebox.askyesno] returns. *)
Definition delete_task (confirm : bool) (selected_id : option string)
    (self : TaskGUI) : M TaskGUI :=
  if falsy selected_id then
    mret (showerror "Select Task" "Please select a task to delete." self)
  else if confirm then
    m ← delete_task (manager self) (default "" selected_id);
    let self := set_manager m self in
    self ← load_table self None;
    mret (clear_add_fields self)
  else mret self.

End GUI.

(** A window on the sample store with the form as the constructor leaves
    it, and a date check for the samples. *)
Definition window0 : GUI.TaskGUI :=
  GUI.mkTaskGUI store0 "Task Name" "Description" "Medium" "YYYY-MM-DD" []
    "" "All" "" [].

Definition sample_date_ok (s : string) : bool :=
  String.eqb s "2024-01-01" || String.eqb s "2024-01-05".

(** * Properties *)

(** Unfolds the monadic plumbing of a store operation. *)
Ltac run :=
  unfold add_task, update_task, delete_task, filter_tasks, sort_tasks,
    save_tasks, narrow, list_append, list_setitem, list_read, list_write,
    list_new, write_json, tasks_of, mbind, M_bind, mret, M_ret in *;
  simpl in *.

(** ** [add_task] *)

(** C8. [add_task] appends the task at the end of the store's list object:
    the length grows by one, the task is the new last element and the
    earlier tasks keep their positions; the new sequence is then written to
    the backing file.  The task is any task: no test on its [id] is made,
    whatever the ids already stored. *)
Theorem add_task_appends (w : World) (self : TaskManager) (t : Task) :
  let w' := (add_task self t w).2 in
  let doc := Document (map to_dict (tasks_of w self ++ [t])) in
  tasks_of w' self = tasks_of w self ++ [t]
  ∧ List.length (tasks_of w' self) = S (List.length (tasks_of w self))
  ∧ last (tasks_of w' self) = Some t
  ∧ (∀ i x, tasks_of w self !! i = Some x → tasks_of w' self !! i = Some x)
  ∧ files w' !! filename self = Some doc
  ∧ log w' = Wrote (filename self) doc :: log w.
Proof.
  run. rewrite decide_True by done.
  repeat split.
  - rewrite length_app. simpl. lia.
  - apply last_snoc.
  - intros i x Hx. by apply lookup_app_l_Some.
  - apply lookup_insert_eq.
Qed.

Example add_task_duplicate_id :
  tasks_of (add_task store0 buy_milk (world_with [buy_milk])).2 store0
  = [buy_milk; buy_milk].
Proof. reflexivity. Qed.

(** ** [update_task] *)

Lemma update_loop_absent (self : TaskManager) (i : string) (t : Task)
    (w : World) (rest : list Task) (n : nat) :
  (∀ a, a ∈ rest → id a ≠ i) →
  update_loop self i t n rest w = (false, w).
Proof.
  revert n. induction rest as [|a rest IH]; intros n Hno; simpl.
  - reflexivity.
  - destruct (String.eqb_spec (id a) i) as [Heq|_].
    + exfalso. apply (Hno a); [left | exact Heq].
    + apply IH. intros b Hb. apply Hno. by right.
Qed.

Lemma update_loop_first (self : TaskManager) (i : string) (t : Task)
    (w : World) (rest : list Task) (n k : nat) (a : Task) :
  rest !! k = Some a → id a = i →
  (∀ j b, j < k → rest !! j = Some b → id b ≠ i) →
  update_loop self i t n rest w
  = (true, (save_tasks self (list_setitem (tasks self) (n + k) t w).2).2).
Proof.
  revert n k. induction rest as [|b rest IH]; intros n k Hk Ha Hfirst.
  - discriminate.
  - simpl. destruct k as [|k].
    + injection Hk as ->. rewrite (proj2 (String.eqb_eq _ _) Ha).
      by rewrite Nat.add_0_r.
    + destruct (String.eqb_spec (id b) i) as [Heq|_].
      * exfalso. apply (Hfirst 0 b); [lia | done | done].
      * rewrite (IH (S n) k Hk Ha).
        -- by replace (S n + k) with (n + S k) by lia.
        -- intros j c Hj Hc. apply (Hfirst (S j) c); [lia | done].
Qed.

(** C1. [update_task] puts the replacement, as it is, at the position of
    the first task whose [id] is the given one: the other positions and the
    length are unchanged, the new sequence is written to the backing file
    and the result is [True].  When no task has that [id] the result is
    [False] and the world (the sequence, the file, the log of writes) is the
    one before the call.  The [id] of the replacement takes no part in
    this: a replacement with another [id] is stored all the same. *)
Theorem update_task_replaces_first (w : World) (self : TaskManager)
    (i : string) (t : Task) :
  let ts := tasks_of w self in
  let b := (update_task self i t w).1 in
  let w' := (update_task self i t w).2 in
  (∀ k a, ts !! k = Some a → id a = i →
      (∀ j c, j < k → ts !! j = Some c → id c ≠ i) →
      b = true
      ∧ tasks_of w' self = <[k := t]> ts
      ∧ tasks_of w' self !! k = Some t
      ∧ (∀ j, j ≠ k → tasks_of w' self !! j = ts !! j)
      ∧ List.length (tasks_of w' self) = List.length ts
      ∧ files w' !! filename self = Some (Document (map to_dict (<[k := t]> ts)))
      ∧ log w'
        = Wrote (filename self) (Document (map to_dict (<[k := t]> ts)))
          :: log w)
  ∧ ((∀ a, a ∈ ts → id a ≠ i) →
      b = false ∧ w' = w).
Proof.
  intros ts b w'. subst ts. unfold tasks_of. split.
  - intros k a Hk Ha Hfirst.
    assert (Hrun : update_task self i t w
                   = (true, (save_tasks self
                               (list_setitem (tasks self) k t w).2).2)).
    { unfold update_task, mbind, M_bind, list_read. simpl.
      by rewrite (update_loop_first self i t w _ 0 k a Hk Ha Hfirst). }
    subst b w'. rewrite Hrun. run. rewrite decide_True by done.
    assert (Hlt : k < List.length (heap w (tasks self)))
      by (eapply lookup_lt_Some; exact Hk).
    repeat split.
    + by apply list_lookup_insert_eq.
    + intros j Hj. by apply list_lookup_insert_ne.
    + apply length_insert.
    + apply lookup_insert_eq.
  - intros Hno. subst b w'.
    unfold update_task, mbind, M_bind, list_read. simpl.
    by rewrite (update_loop_absent self i t w _ 0 Hno).
Qed.

Example update_task_mismatched_id :
  (update_task store0 "1" pay_rent (world_with [call_mum; buy_milk; buy_milk])).1
  = true
  ∧ tasks_of (update_task store0 "1" pay_rent
                (world_with [call_mum; buy_milk; buy_milk])).2 store0
    = [call_mum; pay_rent; buy_milk].
Proof. split; reflexivity. Qed.

(** ** [delete_task] *)

(** C7. [delete_task] leaves in the store exactly the tasks whose [id] is
    not the given one, in the order they had, and writes that sequence to
    the backing file.  When no task has the [id], the sequence is the one
    before the call and the write takes place all the same. *)
Theorem delete_task_removes_all (w : World) (self : TaskManager)
    (i : string) :
  let ts := tasks_of w self in
  let self' := (delete_task self i w).1 in
  let w' := (delete_task self i w).2 in
  let doc := Document (map to_dict (tasks_of w' self')) in
  tasks_of w' self' = List.filter (fun t => negb (String.eqb (id t) i)) ts
  ∧ (∀ t, t ∈ tasks_of w' self' ↔ t ∈ ts ∧ id t ≠ i)
  ∧ tasks_of w' self' `sublist_of` ts
  ∧ filename self' = filename self
  ∧ files w' !! filename self = Some doc
  ∧ log w' = Wrote (filename self) doc :: log w
  ∧ ((∀ t, t ∈ ts → id t ≠ i) → tasks_of w' self' = ts).
Proof.
  run. rewrite decide_True by done.
  set (keep := fun t : Task => negb (String.eqb (id t) i)).
  split_and!; try reflexivity.
  - intros t. rewrite !list_elem_of_In, filter_In. unfold keep.
    destruct (String.eqb_spec (id t) i); simpl; intuition congruence.
  - induction (heap w (tasks self)) as [|a l IH]; simpl.
    + constructor.
    + destruct (keep a); by constructor.
  - apply lookup_insert_eq.
  - intros Hno. induction (heap w (tasks self)) as [|a l IH]; simpl.
    + reflexivity.
    + unfold keep at 1. destruct (String.eqb_spec (id a) i) as [Heq|_].
      * exfalso. apply (Hno a); [left | done].
      * simpl. f_equal. apply IH. intros t Ht. apply Hno. by right.
Qed.

(** ** [filter_tasks] *)

Lemma append_cons (c : ascii) (a b : string) :
  String c a +:+ b = String c (a +:+ b).
Proof. reflexivity. Qed.

Lemma append_empty (b : string) : "" +:+ b = b.
Proof. reflexivity. Qed.

Lemma prefix_append (a b : string) :
  String.prefix a b = true ↔ ∃ post, b = a +:+ post.
Proof.
  revert b. induction a as [|c a IH]; intros b.
  - destruct b; simpl; split; eauto.
  - destruct b as [|c' b]; simpl.
    + split; [discriminate | intros [post H]; discriminate].
    + setoid_rewrite append_cons.
      destruct (ascii_dec c c') as [->|Hne].
      * rewrite IH. split; intros [post H]; exists post; congruence.
      * split; [discriminate | intros [post H]; congruence].
Qed.

Lemma contains_cons (a : string) (c : ascii) (b : string) :
  PyStr.contains a (String c b)
  = String.prefix a (String c b) || PyStr.contains a b.
Proof. reflexivity. Qed.

Lemma contains_substring (a b : string) :
  PyStr.contains a b = true ↔ is_substring a b.
Proof.
  unfold is_substring. induction b as [|c b IH].
  - change (PyStr.contains a "") with (String.prefix a "" || false).
    rewrite orb_false_r, prefix_append. split.
    + intros [post H]. by exists "", post.
    + intros [pre [post H]]. destruct pre; [by exists post|discriminate].
  - rewrite contains_cons, orb_true_iff, IH, prefix_append. split.
    + intros [[post H]|[pre [post H]]].
      * by exists "", post.
      * exists (String c pre), post. by rewrite append_cons, H.
    + intros [pre [post H]]. destruct pre as [|c' pre].
      * left. by exists post.
      * right. exists pre, post. rewrite append_cons in H. congruence.
Qed.

Lemma filter_tasks_in_order (self : TaskManager) (n p d : string) :
  filter_tasks self n p d
  = narrow_in_order n p d [by_name; by_priority; by_due_date] (tasks self).
Proof. reflexivity. Qed.

Lemma narrow_if_filter (cond : bool) (test : Task → bool) (l : list Task) :
  (if cond then List.filter test l else l)
  = List.filter (fun t => negb cond || test t) l.
Proof.
  destruct cond; simpl; [reflexivity|].
  induction l as [|a l IH]; simpl; congruence.
Qed.

(** What one narrowing step does to the world. *)
Lemma narrow_effect (cond : bool) (test : Task → bool) (l : loc) (w : World) :
  let r := (narrow cond test l w).1 in
  let w' := (narrow cond test l w).2 in
  heap w' r = List.filter (fun t => negb cond || test t) (heap w l)
  ∧ files w' = files w ∧ log w' = log w
  ∧ (next_loc w ≤ next_loc w')%nat
  ∧ (∀ l', l' < next_loc w → heap w' l' = heap w l')
  ∧ (cond = true → r = next_loc w)
  ∧ (cond = false → r = l).
Proof.
  rewrite <- narrow_if_filter. destruct cond; run.
  - rewrite decide_True by done. split_and!; try done; try lia.
    intros l' Hl'. rewrite decide_False; [done | lia].
  - split_and!; done.
Qed.

Lemma narrow_by_effect (n p d : string) (c : criterion) (l : loc)
    (w : World) :
  let r := (narrow_by n p d c l w).1 in
  let w' := (narrow_by n p d c l w).2 in
  heap w' r = List.filter (fun t => passes n p d t c) (heap w l)
  ∧ files w' = files w ∧ log w' = log w
  ∧ (next_loc w ≤ next_loc w')%nat
  ∧ (∀ l', l' < next_loc w → heap w' l' = heap w l').
Proof.
  destruct c; simpl;
    match goal with
    | |- context [narrow ?cond ?test l w] =>
        destruct (narrow_effect cond test l w) as (H1 & H2 & H3 & H4 & H5 & _)
    end;
    rewrite ?negb_involutive in H1; split_and!; assumption.
Qed.

Lemma filter_filter_andb {A} (f g : A → bool) (l : list A) :
  List.filter f (List.filter g l) = List.filter (fun x => g x && f x) l.
Proof.
  induction l as [|a l IH]; simpl; [reflexivity|].
  destruct (g a); simpl; [destruct (f a)|]; congruence.
Qed.

Lemma narrow_in_order_effect (n p d : string) (cs : list criterion) :
  ∀ (l : loc) (w : World),
    let r := (narrow_in_order n p d cs l w).1 in
    let w' := (narrow_in_order n p d cs l w).2 in
    heap w' r
    = List.filter (fun t => forallb (passes n p d t) cs) (heap w l)
    ∧ files w' = files w ∧ log w' = log w
    ∧ (next_loc w ≤ next_loc w')%nat
    ∧ (∀ l', l' < next_loc w → heap w' l' = heap w l').
Proof.
  induction cs as [|c cs IH]; intros l w; simpl.
  - split_and!; try done.
    induction (heap w l) as [|a ts IHts]; simpl; congruence.
  - unfold mbind, M_bind.
    pose proof (narrow_by_effect n p d c l w) as (H1 & H2 & H3 & H4 & H5).
    destruct (narrow_by n p d c l w) as [l1 w1]. simpl in *.
    destruct (IH l1 w1) as (I1 & I2 & I3 & I4 & I5).
    split_and!; try congruence; try lia.
    + rewrite I1, H1. apply filter_filter_andb.
    + intros l' Hl'. rewrite I5 by lia. by apply H5.
Qed.

Lemma forallb_Permutation {A} (f : A → bool) (l l' : list A) :
  Permutation l l' → forallb f l = forallb f l'.
Proof.
  induction 1; simpl; try congruence.
  by rewrite !andb_assoc, (andb_comm (f y)).
Qed.

(** C3. [filter_tasks] yields exactly the store's tasks that pass the three
    tests together, in the store's order: the name test passes when the
    name filter is empty or its lower-case form occurs in the lower-case
    form of the task's name, the priority test when the filter is "All" or
    equals the task's priority, the due-date test when the filter is empty
    or equals the task's due date.  Narrowing by the three criteria in any
    other order gives the same sequence. *)
Theorem filter_tasks_exact (w : World) (self : TaskManager) (n p d : string) :
  let ts := tasks_of w self in
  let out := heap (filter_tasks self n p d w).2 (filter_tasks self n p d w).1 in
  out = List.filter (matches n p d) ts
  ∧ (∀ t, t ∈ out ↔
          t ∈ ts
          ∧ (n = "" ∨ is_substring (PyStr.lower n) (PyStr.lower (name t)))
          ∧ (p = "All" ∨ priority t = p)
          ∧ (d = "" ∨ due_date t = d))
  ∧ (∀ cs, Permutation cs [by_name; by_priority; by_due_date] →
       heap (narrow_in_order n p d cs (tasks self) w).2
            (narrow_in_order n p d cs (tasks self) w).1
       = out).
Proof.
  intros ts out.
  assert (Hout : out = List.filter (matches n p d) ts).
  { subst out. rewrite filter_tasks_in_order.
    destruct (narrow_in_order_effect n p d [by_name; by_priority; by_due_date]
                (tasks self) w) as (H & _).
    rewrite H. apply filter_ext. intros t. unfold matches. simpl.
    by rewrite andb_true_r, andb_assoc. }
  split_and!.
  - exact Hout.
  - intros t. rewrite Hout, !list_elem_of_In, filter_In.
    unfold matches, passes, name_test, priority_test, due_date_test.
    rewrite !andb_true_iff, !orb_true_iff, contains_substring,
      !String.eqb_eq.
    assert (Hn : negb (PyStr.truthy n) = true ↔ n = "")
      by (destruct n; simpl; split; congruence).
    assert (Hd : negb (PyStr.truthy d) = true ↔ d = "")
      by (destruct d; simpl; split; congruence).
    rewrite Hn, Hd. tauto.
  - intros cs Hcs. rewrite Hout.
    destruct (narrow_in_order_effect n p d cs (tasks self) w) as (H & _).
    rewrite H. apply filter_ext. intros t.
    rewrite (forallb_Permutation _ _ _ Hcs). unfold matches. simpl.
    by rewrite andb_true_r, andb_assoc.
Qed.

Example filter_tasks_high :
  heap (filter_tasks store0 "" "High" "" (world_with [buy_milk; pay_rent])).2
       (filter_tasks store0 "" "High" "" (world_with [buy_milk; pay_rent])).1
  = [buy_milk].
Proof. reflexivity. Qed.

Example filter_tasks_name_case :
  heap (filter_tasks store0 "MUM" "All" "2024-01-03"
          (world_with [buy_milk; call_mum; pay_rent])).2
       (filter_tasks store0 "MUM" "All" "2024-01-03"
          (world_with [buy_milk; call_mum; pay_rent])).1
  = [call_mum].
Proof. reflexivity. Qed.

(** ** [sorted] *)

Lemma ltb_false_le (a b : string) : String.ltb a b = false → String.le b a.
Proof.
  unfold String.ltb, String.le, String.leb.
  rewrite (String.compare_antisym b a).
  by destruct (String.compare a b).
Qed.

Lemma ltb_true_le (a b : string) : String.ltb a b = true → String.le a b.
Proof.
  unfold String.ltb, String.le, String.leb. by destruct (String.compare a b).
Qed.

Lemma ltb_true_ne (a b : string) : String.ltb a b = true → a ≠ b.
Proof.
  intros H ->. unfold String.ltb in H.
  assert (Hle : String.le b b) by reflexivity.
  unfold String.le, String.leb in Hle.
  pose proof (String.compare_antisym b b) as Hanti.
  destruct (String.compare b b); simpl in *; congruence.
Qed.

Section SortedFacts.
Context {A : Type} (key : A → string).

Lemma insert_by_Permutation (x : A) (l : list A) :
  Permutation (insert_by key x l) (x :: l).
Proof.
  induction l as [|y l IH]; simpl; [reflexivity|].
  destruct (String.ltb (key y) (key x)); [|reflexivity].
  rewrite IH. apply perm_swap.
Qed.

Lemma sorted_Permutation (l : list A) : Permutation (sorted key l) l.
Proof.
  induction l as [|x l IH]; simpl; [reflexivity|].
  unfold sorted in IH. rewrite insert_by_Permutation. by constructor.
Qed.

Lemma insert_by_StronglySorted (x : A) (l : list A) :
  StronglySorted (key_le key) l →
  StronglySorted (key_le key) (insert_by key x l).
Proof.
  induction 1 as [|y l Hl IH Hy]; simpl.
  - repeat constructor.
  - destruct (String.ltb (key y) (key x)) eqn:Hlt.
    + constructor; [exact IH|].
      rewrite insert_by_Permutation. constructor; [|exact Hy].
      by apply ltb_true_le.
    + apply ltb_false_le in Hlt. constructor.
      * by constructor.
      * constructor; [exact Hlt|].
        eapply Forall_impl; [exact Hy|].
        intros z Hz. unfold key_le in *. by etrans.
Qed.

Lemma sorted_StronglySorted (l : list A) :
  StronglySorted (key_le key) (sorted key l).
Proof.
  induction l as [|x l IH]; simpl; [constructor|].
  by apply insert_by_StronglySorted.
Qed.

Lemma insert_by_with_key (k : string) (x : A) (l : list A) :
  with_key key k (insert_by key x l) = with_key key k (x :: l).
Proof.
  unfold with_key. induction l as [|y l IH]; simpl; [reflexivity|].
  destruct (String.ltb (key y) (key x)) eqn:Hlt; [|reflexivity].
  simpl. rewrite IH. simpl.
  apply ltb_true_ne in Hlt.
  destruct (String.eqb_spec (key y) k), (String.eqb_spec (key x) k);
    congruence.
Qed.

Lemma with_key_cons (k : string) (x : A) (l : list A) :
  with_key key k (x :: l)
  = if String.eqb (key x) k then x :: with_key key k l
    else with_key key k l.
Proof. reflexivity. Qed.

Lemma sorted_with_key (k : string) (l : list A) :
  with_key key k (sorted key l) = with_key key k l.
Proof.
  induction l as [|x l IH]; [reflexivity|].
  change (sorted key (x :: l)) with (insert_by key x (sorted key l)).
  by rewrite insert_by_with_key, !with_key_cons, IH.
Qed.

Lemma sorted_stable_sorting (l : list A) :
  stable_sorting key l (sorted key l).
Proof.
  split; [apply sorted_StronglySorted | intros k; apply sorted_with_key].
Qed.

Lemma with_key_head (x : A) (l : list A) :
  with_key key (key x) (x :: l) = x :: with_key key (key x) l.
Proof. unfold with_key. simpl. by rewrite String.eqb_refl. Qed.

Lemma with_key_elem (k : string) (x : A) (l : list A) :
  x ∈ with_key key k l ↔ x ∈ l ∧ key x = k.
Proof.
  unfold with_key. rewrite !list_elem_of_In, filter_In.
  by rewrite String.eqb_eq.
Qed.

(** Two lists in key order that agree on the elements of each key are
    equal. *)
Lemma StronglySorted_with_key_eq (l1 l2 : list A) :
  StronglySorted (key_le key) l1 → StronglySorted (key_le key) l2 →
  (∀ k, with_key key k l1 = with_key key k l2) →
  l1 = l2.
Proof.
  intros Hs1. revert l2.
  induction Hs1 as [|x l1 Hs1 IH Hx]; intros l2 Hs2 Hkeys.
  - destruct l2 as [|y l2]; [reflexivity|].
    specialize (Hkeys (key y)). rewrite with_key_head in Hkeys.
    discriminate.
  - destruct Hs2 as [|y l2 Hs2 Hy].
    { specialize (Hkeys (key x)). rewrite with_key_head in Hkeys.
      discriminate. }
    assert (Hxy : key x = key y).
    { apply (anti_symm String.le).
      - assert (Hin : y ∈ x :: l1).
        { apply (with_key_elem (key y)). rewrite Hkeys, with_key_head.
          left. }
        apply elem_of_cons in Hin as [->|Hin]; [reflexivity|].
        rewrite Forall_forall in Hx. by apply (Hx y).
      - assert (Hin : x ∈ y :: l2).
        { apply (with_key_elem (key x)). rewrite <- Hkeys, with_key_head.
          left. }
        apply elem_of_cons in Hin as [->|Hin]; [reflexivity|].
        rewrite Forall_forall in Hy. by apply (Hy x). }
    assert (Hhead := Hkeys (key x)).
    rewrite with_key_head, Hxy, with_key_head in Hhead.
    injection Hhead as -> Htail.
    f_equal. apply IH; [exact Hs2|].
    intros k. destruct (String.eqb_spec (key y) k) as [<-|Hne].
    + exact Htail.
    + specialize (Hkeys k). unfold with_key in *. simpl in Hkeys.
      by rewrite (proj2 (String.eqb_neq _ _) Hne) in Hkeys.
Qed.

(** The stable sorting of a list is unique: whatever algorithm [sorted]
    runs, its outcome is the list computed here. *)
Lemma sorted_unique (l l' : list A) :
  stable_sorting key l l' → l' = sorted key l.
Proof.
  intros [Hs Hk]. apply StronglySorted_with_key_eq.
  - exact Hs.
  - apply sorted_StronglySorted.
  - intros k. by rewrite Hk, sorted_with_key.
Qed.

(** In a list in key order, an element at an earlier position has a key
    that is not greater. *)
Lemma StronglySorted_lookup_le (l : list A) (i j : nat) (a b : A) :
  StronglySorted (key_le key) l →
  l !! i = Some a → l !! j = Some b → i < j → key_le key a b.
Proof.
  intros Hs. revert i j. induction Hs as [|x l Hs IH Hx]; intros i j Hi Hj Hij.
  - discriminate.
  - destruct j as [|j]; [lia|]. simpl in Hj. destruct i as [|i].
    + injection Hi as ->. rewrite Forall_forall in Hx. apply Hx.
      eapply list_elem_of_lookup_2. exact Hj.
    + simpl in Hi. apply (IH i j Hi Hj). lia.
Qed.
End SortedFacts.

(** ** [sort_tasks] *)

(** What [sort_tasks] does to the world: one new list object, nothing
    else. *)
Lemma sort_tasks_effect (self : TaskManager) (key : attr) (w : World) :
  let r := (sort_tasks self key w).1 in
  let w' := (sort_tasks self key w).2 in
  r = next_loc w
  ∧ heap w' r = sorted (fun t => getattr t key) (heap w (tasks self))
  ∧ files w' = files w ∧ log w' = log w
  ∧ (∀ l', l' < next_loc w → heap w' l' = heap w l').
Proof.
  run. rewrite decide_True by done. split_and!; try done.
  intros l' Hl'. rewrite decide_False; [done | lia].
Qed.

(** C4. For each of the five attribute names, [sort_tasks] yields the
    store's tasks, each as often as the store holds it, in non-decreasing
    order of the attribute's string value; the tasks that share a value come
    in the order the store has them.  (By [sorted_unique] these three facts
    fix the result.) *)
Theorem sort_tasks_stable (w : World) (self : TaskManager) (key : attr) :
  let ts := tasks_of w self in
  let out := heap (sort_tasks self key w).2 (sort_tasks self key w).1 in
  let field := fun t => getattr t key in
  Permutation out ts
  ∧ List.length out = List.length ts
  ∧ StronglySorted (key_le field) out
  ∧ (∀ i j a b, out !! i = Some a → out !! j = Some b → i < j →
       String.le (field a) (field b))
  ∧ (∀ k, with_key field k out = with_key field k ts).
Proof.
  intros ts out field.
  destruct (sort_tasks_effect self key w) as (_ & Hout & _).
  fold out in Hout. fold (tasks_of w self) in Hout. fold ts field in Hout.
  rewrite Hout. split_and!.
  - apply sorted_Permutation.
  - apply Permutation_length, sorted_Permutation.
  - apply sorted_StronglySorted.
  - intros i j a b Hi Hj Hij.
    exact (StronglySorted_lookup_le field _ i j a b
             (sorted_StronglySorted field ts) Hi Hj Hij).
  - intros k. apply sorted_with_key.
Qed.

Example sort_tasks_by_due_date :
  heap (sort_tasks store0 a_due_date
          (world_with [pay_rent; call_mum; buy_milk])).2
       (sort_tasks store0 a_due_date
          (world_with [pay_rent; call_mum; buy_milk])).1
  = [buy_milk; call_mum; pay_rent].
Proof. reflexivity. Qed.

(** C9. Sorting by [priority] compares the strings: in the result for a
    store whose priorities are High, Medium and Low, the priorities are in
    non-decreasing string order, each task with High comes before each task
    with Low, and each task with Low before each task with Medium. *)
Theorem sort_tasks_priority_alphabetical (w : World) (self : TaskManager) :
  Forall (fun t => priority t ∈ ["High"; "Medium"; "Low"]) (tasks_of w self) →
  let out :=
    heap (sort_tasks self a_priority w).2 (sort_tasks self a_priority w).1 in
  StronglySorted (key_le priority) out
  ∧ (∀ i j a b, out !! i = Some a → out !! j = Some b →
       priority a = "High" → priority b = "Low" → i < j)
  ∧ (∀ i j a b, out !! i = Some a → out !! j = Some b →
       priority a = "Low" → priority b = "Medium" → i < j).
Proof.
  intros _ out.
  assert (Hs : StronglySorted (key_le priority) out).
  { destruct (sort_tasks_effect self a_priority w) as (_ & Hout & _).
    subst out. rewrite Hout. apply sorted_StronglySorted. }
  assert (Hprec : ∀ i j a b, out !! i = Some a → out !! j = Some b →
            String.ltb (priority a) (priority b) = true → i < j).
  { intros i j a b Hi Hj Hlt.
    destruct (Nat.lt_trichotomy i j) as [Hij|[->|Hji]]; [exact Hij| |].
    - rewrite Hi in Hj. injection Hj as ->.
      by apply ltb_true_ne in Hlt.
    - pose proof (StronglySorted_lookup_le priority out j i b a Hs Hj Hi Hji)
        as Hle.
      pose proof (ltb_true_ne _ _ Hlt) as Hne. apply ltb_true_le in Hlt.
      exfalso. apply Hne. by apply (anti_symm String.le). }
  split_and!.
  - exact Hs.
  - intros i j a b Hi Hj Ha Hb. apply (Hprec i j a b Hi Hj).
    by rewrite Ha, Hb.
  - intros i j a b Hi Hj Ha Hb. apply (Hprec i j a b Hi Hj).
    by rewrite Ha, Hb.
Qed.

Lemma sort_tasks_priority_alphabetical_witness :
  Forall (fun t => priority t ∈ ["High"; "Medium"; "Low"])
    [call_mum; pay_rent; buy_milk; pay_rent]
  ∧ heap (sort_tasks store0 a_priority
            (world_with [call_mum; pay_rent; buy_milk; pay_rent])).2
         (sort_tasks store0 a_priority
            (world_with [call_mum; pay_rent; buy_milk; pay_rent])).1
    = [buy_milk; pay_rent; pay_rent; call_mum]
  ∧ (∀ i j a b,
       [buy_milk; pay_rent; pay_rent; call_mum] !! i = Some a →
       [buy_milk; pay_rent; pay_rent; call_mum] !! j = Some b →
       priority a = "Low" → priority b = "Medium" → i < j).
Proof.
  assert (Hpri : Forall (fun t => priority t ∈ ["High"; "Medium"; "Low"])
                   [call_mum; pay_rent; buy_milk; pay_rent]).
  { repeat constructor. }
  split_and!.
  - exact Hpri.
  - reflexivity.
  - exact (proj2 (proj2 (sort_tasks_priority_alphabetical
             (world_with [call_mum; pay_rent; buy_milk; pay_rent]) store0
             Hpri))).
Defined.

(** ** [Task.__init__] *)

Lemma uuid4_str_length (r : N) : String.length (UUID.uuid4_str r) = 36.
Proof. reflexivity. Qed.

Lemma uuid4_str_truthy (r : N) : PyStr.truthy (UUID.uuid4_str r) = true.
Proof. reflexivity. Qed.

Lemma truthy_nonempty (s : string) : PyStr.truthy s = true ↔ s ≠ "".
Proof. destruct s; simpl; split; congruence. Qed.

Lemma Task_init_id_truthy (n d p du : string) (tid : option string)
    (w : World) :
  PyStr.truthy (id (Task_init n d p du tid w).1) = true.
Proof.
  unfold Task_init, mbind, M_bind, mret, M_ret.
  destruct tid as [s|]; [destruct (PyStr.truthy s) eqn:Hs|]; simpl;
    auto using uuid4_str_truthy.
Qed.

(** C10. The constructor keeps an explicit [id] only when it is a
    non-empty string.  For [None] and for the empty string alike (the false
    values of the argument) the [id] is the string of a newly drawn UUID,
    36 characters long: an explicit empty [id] is not kept. *)
Theorem Task_init_id_or_uuid (n d p du : string) (w : World) :
  let fresh := UUID.uuid4_str (urandom w (drawn w)) in
  (∀ tid, falsy tid = true →
     Task_init n d p du tid w = (mkTask fresh n d p du, (uuid4 w).2))
  ∧ Task_init n d p du None w = (mkTask fresh n d p du, (uuid4 w).2)
  ∧ Task_init n d p du (Some "") w = (mkTask fresh n d p du, (uuid4 w).2)
  ∧ id (Task_init n d p du (Some "") w).1 ≠ ""
  ∧ String.length fresh = 36
  ∧ drawn (uuid4 w).2 = S (drawn w)
  ∧ (∀ s, s ≠ "" → Task_init n d p du (Some s) w = (mkTask s n d p du, w)).
Proof.
  intros fresh. split_and!; try reflexivity.
  - intros [s|] Hf; [|reflexivity].
    destruct s; [reflexivity | discriminate].
  - apply truthy_nonempty, Task_init_id_truthy.
  - intros s Hs. apply truthy_nonempty in Hs.
    unfold Task_init, mbind, M_bind, mret, M_ret. by rewrite Hs.
Qed.

Example Task_init_empty_id :
  id (Task_init "Buy milk" "" "High" "2024-01-01" (Some "")
        (world_with [])).1
  = "00000000-0000-4000-8000-000000000000".
Proof. reflexivity. Qed.

Lemma constructed_truthy (t : Task) :
  constructed t ↔ PyStr.truthy (id t) = true.
Proof.
  split.
  - intros (n & d & p & du & tid & w & <-). apply Task_init_id_truthy.
  - intros Ht. destruct t as [i n d p du]. simpl in Ht.
    exists n, d, p, du, (Some i), (world_with []).
    unfold Task_init, mbind, M_bind, mret, M_ret. by rewrite Ht.
Qed.

(** ** [load_tasks] *)

Lemma only_drawn_refl (w : World) : only_drawn w w.
Proof. by unfold only_drawn. Qed.

Lemma only_drawn_trans (w1 w2 w3 : World) :
  only_drawn w1 w2 → only_drawn w2 w3 → only_drawn w1 w3.
Proof.
  unfold only_drawn. intros (? & ? & ? & ? & ? & ?) (? & ? & ? & ? & ? & ?).
  split_and!; try congruence. lia.
Qed.

Lemma Task_init_only_drawn (n d p du : string) (tid : option string)
    (w : World) :
  only_drawn w (Task_init n d p du tid w).2.
Proof.
  unfold Task_init, mbind, M_bind, mret, M_ret, only_drawn.
  destruct tid as [s|]; [destruct (PyStr.truthy s)|]; simpl;
    split_and!; auto.
Qed.

Lemma Task_of_values_typed (n d p du : string) (i : json)
    (tid : option string) (w : World) :
  typed_task_id i = Some tid →
  Task_of_values (JString n) (JString d) (JString p) (JString du) i w
  = (Return (Task_init n d p du tid w).1, (Task_init n d p du tid w).2).
Proof.
  intros Hi. unfold Task_of_values. rewrite Hi. simpl. unfold mbind, M_bind, mret, M_ret.
  by destruct (Task_init n d p du tid w).
Qed.

(** The call returns a task, which [Task.__init__] built, or is
    [Untyped]; it raises nothing. *)
Lemma Task_of_values_outcome (n d p du i : json) (w : World) :
  only_drawn w (Task_of_values n d p du i w).2
  ∧ ((Task_of_values n d p du i w).1 = Untyped
     ∨ ∃ n' d' p' du' tid,
         (Task_of_values n d p du i w).1
         = Return (Task_init n' d' p' du' tid w).1).
Proof.
  assert (Hrest :
    only_drawn w
      ((((if PyVal.truthy i then mret "" else uuid4);; mret Untyped)
          : M (outcome Task)) w).2
    ∧ ((((if PyVal.truthy i then mret "" else uuid4);; mret Untyped)
          : M (outcome Task)) w).1 = Untyped).
  { unfold mbind, M_bind, mret, M_ret, uuid4, only_drawn.
    destruct (PyVal.truthy i); simpl; split_and!; auto. }
  destruct Hrest as [Hw Ho].
  destruct (PyVal.as_str n) as [n'|] eqn:Hn;
    [|unfold Task_of_values; rewrite Hn; split; [exact Hw | by left]].
  destruct (PyVal.as_str d) as [d'|] eqn:Hd;
    [|unfold Task_of_values; rewrite Hn, Hd; split; [exact Hw | by left]].
  destruct (PyVal.as_str p) as [p'|] eqn:Hp;
    [|unfold Task_of_values; rewrite Hn, Hd, Hp;
      split; [exact Hw | by left]].
  destruct (PyVal.as_str du) as [du'|] eqn:Hdu;
    [|unfold Task_of_values; rewrite Hn, Hd, Hp, Hdu;
      split; [exact Hw | by left]].
  destruct (typed_task_id i) as [tid|] eqn:Hi.
  - destruct n, d, p, du; try discriminate. simpl in Hn, Hd, Hp, Hdu.
    injection Hn as ->. injection Hd as ->. injection Hp as ->.
    injection Hdu as ->.
    rewrite (Task_of_values_typed _ _ _ _ _ _ _ Hi). simpl.
    split; [apply Task_init_only_drawn|]. right. by exists n', d', p', du', tid.
  - unfold Task_of_values. rewrite Hn, Hd, Hp, Hdu, Hi. split; [exact Hw | by left].
Qed.

Lemma task_of_record_only_drawn (r : record) (w : World) :
  only_drawn w (task_of_record r w).2.
Proof.
  unfold task_of_record.
  destruct (_ ≫= _) as [[[[[n d] p] du] i]|e|]; try apply only_drawn_refl.
  apply Task_of_values_outcome.
Qed.

Lemma tasks_of_records_only_drawn (rs : list record) (w : World) :
  only_drawn w (tasks_of_records rs w).2.
Proof.
  revert w. induction rs as [|r rs IH]; intros w; simpl.
  - apply only_drawn_refl.
  - unfold mbind at 1, M_bind.
    pose proof (task_of_record_only_drawn r w) as H1.
    destruct (task_of_record r w) as [[t|e|] w1]; simpl in *; [|exact H1|];
      unfold mbind, M_bind; pose proof (IH w1) as H2;
      destruct (tasks_of_records rs w1) as [[ts|e|] w2]; simpl in *;
      by eapply only_drawn_trans.
Qed.

Lemma deserialized_only_drawn (w w1 : World) (r : record) (t : Task) :
  only_drawn w w1 → deserialized w1 r t → deserialized w r t.
Proof.
  intros (_ & _ & _ & _ & Hu & _) (? & ? & ? & ? & Hid).
  unfold deserialized. rewrite <- Hu. by split_and!.
Qed.

Lemma task_of_record_deserialized (r : record) (w : World) :
  holds_strs r →
  ∃ t, (task_of_record r w).1 = Return t ∧ deserialized w r t.
Proof.
  intros [Hstr (i & Hi & Hid)]. unfold task_of_record.
  destruct (Hstr "name") as [n Hn]; [repeat constructor|].
  destruct (Hstr "description") as [d Hd]; [repeat constructor|].
  destruct (Hstr "priority") as [p Hp]; [repeat constructor|].
  destruct (Hstr "due_date") as [du Hdu]; [repeat constructor|].
  rewrite Hn, Hd, Hp, Hdu, Hi. simpl.
  assert (Hcases : (∃ c s, i = JString (String c s))
                   ∨ (PyVal.truthy i = false ∧ typed_task_id i = Some None)
                   ∨ i = JString "").
  { destruct Hid as [[[|c s] ->]|Hfalse].
    - by right; right.
    - left. by exists c, s.
    - destruct i; simpl in Hfalse |- *; try rewrite Hfalse;
        try (right; left; by split).
      destruct s; [by right; right | discriminate]. }
  unfold deserialized. rewrite Hn, Hd, Hp, Hdu, Hi.
  destruct Hcases as [(c & s & ->)|[[Hfalse Htid]| ->]].
  - rewrite (Task_of_values_typed n d p du (JString (String c s))
               (Some (String c s)) w eq_refl).
    eexists. split; [reflexivity|]. simpl. split_and!; try done. by left.
  - rewrite (Task_of_values_typed n d p du i None w Htid).
    eexists. split; [reflexivity|]. simpl. split_and!; try done.
    right. split; [by exists i | by exists (drawn w)].
  - rewrite (Task_of_values_typed n d p du (JString "") (Some "") w eq_refl).
    eexists. split; [reflexivity|]. simpl. split_and!; try done.
    right. split; [by exists (JString "") | by exists (drawn w)].
Qed.

Lemma tasks_of_records_deserialized (rs : list record) (w : World) :
  Forall holds_strs rs →
  ∃ ts, (tasks_of_records rs w).1 = Return ts
        ∧ Forall2 (deserialized w) rs ts.
Proof.
  intros Hrs. revert w. induction Hrs as [|r rs Hr Hrs IH]; intros w; simpl.
  - exists []. split; [reflexivity | constructor].
  - unfold mbind at 1, M_bind.
    destruct (task_of_record_deserialized r w Hr) as (t & Ht & Hdes).
    pose proof (task_of_record_only_drawn r w) as Hw1.
    destruct (task_of_record r w) as [o w1]. simpl in Ht, Hw1. subst o.
    unfold mbind, M_bind.
    destruct (IH w1) as (ts & Hts & Hall).
    destruct (tasks_of_records rs w1) as [os w2]. simpl in Hts. subst os.
    exists (t :: ts). split; [reflexivity|]. constructor; [exact Hdes|].
    eapply Forall2_impl; [exact Hall|].
    intros r' t'. by apply deserialized_only_drawn.
Qed.

(** The ways [load_tasks] ends normally. *)
Lemma load_tasks_absent (f : string) (w : World) :
  files w !! f = None →
  load_tasks f w = (Return (next_loc w), (list_new [] w).2).
Proof.
  intros Hf. unfold load_tasks, open_read, mbind, M_bind, mret, M_ret.
  by rewrite Hf.
Qed.

Lemma load_tasks_not_json (f text : string) (w : World) :
  files w !! f = Some (NotJSON text) →
  load_tasks f w = (Return (next_loc w), (list_new [] w).2).
Proof.
  intros Hf. unfold load_tasks, open_read, mbind, M_bind, mret, M_ret.
  by rewrite Hf.
Qed.

(** The run of [load_tasks] on a file that holds a JSON value over which
    the comprehension can iterate. *)
Lemma load_tasks_json (f : string) (v : json) (rs : list record) (w : World) :
  files w !! f = Some (JSON v) →
  PyVal.iter v = Return rs →
  load_tasks f w
  = match (tasks_of_records rs w).1 with
    | Return ts =>
        (Return (next_loc (tasks_of_records rs w).2),
         (list_new ts (tasks_of_records rs w).2).2)
    | Raise FileNotFoundError | Raise JSONDecodeError =>
        (Return (next_loc (tasks_of_records rs w).2),
         (list_new [] (tasks_of_records rs w).2).2)
    | Raise e => (Raise e, (tasks_of_records rs w).2)
    | Untyped => (Untyped, (tasks_of_records rs w).2)
    end.
Proof.
  intros Hf Hiter.
  unfold load_tasks, open_read, mbind, M_bind, mret, M_ret.
  rewrite Hf. unfold json_load, outcome_bind. cbv beta iota. rewrite Hiter.
  by destruct (tasks_of_records rs w) as [[ts|[| | | |k]|] w1].
Qed.

Lemma load_tasks_document (f : string) (rs : list record) (ts : list Task)
    (w : World) :
  files w !! f = Some (Document rs) →
  (tasks_of_records rs w).1 = Return ts →
  load_tasks f w
  = (Return (next_loc (tasks_of_records rs w).2),
     (list_new ts (tasks_of_records rs w).2).2).
Proof.
  intros Hf Hts. rewrite (load_tasks_json f (JArray rs) rs w Hf eq_refl).
  by rewrite Hts.
Qed.

Lemma list_new_heap (ts : list Task) (w : World) :
  heap (list_new ts w).2 (next_loc w) = ts.
Proof. run. by rewrite decide_True. Qed.

Lemma TaskManager_init_load (f : string) (w : World) (l : loc) (w' : World) :
  load_tasks f w = (Return l, w') →
  TaskManager_init f w = (Return (mkTaskManager f l), w').
Proof.
  intros H. unfold TaskManager_init, mbind, M_bind, mret, M_ret.
  by rewrite H.
Qed.

(** The ways the comprehension ends with an exception. *)
Lemma item_get_outcome (members : list (string * json)) (k : string) :
  (∃ v, item_get members k = Return v)
  ∨ item_get members k = Raise (KeyError k).
Proof.
  induction members as [|[k' v] members IH]; simpl; [by right|].
  destruct (String.eqb k' k); [left; by exists v | exact IH].
Qed.

Lemma has_or_lacks_task_key (members : list (string * json)) :
  has_task_keys (JObject members) ∨ lacks_task_key (JObject members).
Proof.
  unfold has_task_keys, lacks_task_key, task_keys, dict_get.
  destruct (item_get_outcome members "name") as [Hn|Hn];
    [|right; eexists; split; [|exact Hn]; repeat constructor].
  destruct (item_get_outcome members "description") as [Hd|Hd];
    [|right; eexists; split; [|exact Hd]; repeat constructor].
  destruct (item_get_outcome members "priority") as [Hp|Hp];
    [|right; eexists; split; [|exact Hp]; repeat constructor].
  destruct (item_get_outcome members "due_date") as [Hdu|Hdu];
    [|right; eexists; split; [|exact Hdu]; repeat constructor].
  destruct (item_get_outcome members "id") as [Hi|Hi];
    [|right; eexists; split; [|exact Hi]; repeat constructor].
  left. intros k Hk.
  repeat (apply elem_of_cons in Hk as [->|Hk]; [assumption|]).
  by apply elem_of_nil in Hk.
Qed.

(** Every value is a record with the five keys, a record that lacks one,
    or no [dict] at all. *)
Lemma record_cases (r : record) :
  has_task_keys r ∨ lacks_task_key r ∨ ¬ is_dict r.
Proof.
  destruct r as [| | | | | |members];
    try (right; right; intros [m Hm]; discriminate).
  destruct (has_or_lacks_task_key members); auto.
Qed.

Lemma holds_strs_has_task_keys (r : record) :
  holds_strs r → has_task_keys r.
Proof.
  intros [Hstr (v & Hv & _)] k Hk.
  apply elem_of_cons in Hk as [->|Hk]; [destruct (Hstr "name") as [s Hs];
    [repeat constructor | by exists (JString s)]|].
  apply elem_of_cons in Hk as [->|Hk]; [destruct (Hstr "description") as [s Hs];
    [repeat constructor | by exists (JString s)]|].
  apply elem_of_cons in Hk as [->|Hk]; [destruct (Hstr "priority") as [s Hs];
    [repeat constructor | by exists (JString s)]|].
  apply elem_of_cons in Hk as [->|Hk]; [destruct (Hstr "due_date") as [s Hs];
    [repeat constructor | by exists (JString s)]|].
  apply elem_of_cons in Hk as [->|Hk]; [by exists v|].
  by apply elem_of_nil in Hk.
Qed.

(** A record that lacks a key stops the comprehension with [KeyError]. *)
Lemma task_of_record_key_error (r : record) :
  lacks_task_key r →
  ∃ k, k ∈ task_keys ∧ dict_get r k = Raise (KeyError k)
       ∧ ∀ w, task_of_record r w = (Raise (KeyError k), w).
Proof.
  intros (k0 & Hk0 & Hlack).
  destruct r as [| | | | | |members]; try discriminate.
  unfold task_of_record, task_keys, dict_get in *.
  destruct (item_get_outcome members "name") as [[n Hn]|Hn]; rewrite Hn; simpl;
    [|eexists; split; [|split; [exact Hn | reflexivity]]; repeat constructor].
  destruct (item_get_outcome members "description") as [[d Hd]|Hd];
    rewrite Hd; simpl;
    [|eexists; split; [|split; [exact Hd | reflexivity]]; repeat constructor].
  destruct (item_get_outcome members "priority") as [[p Hp]|Hp]; rewrite Hp;
    simpl;
    [|eexists; split; [|split; [exact Hp | reflexivity]]; repeat constructor].
  destruct (item_get_outcome members "due_date") as [[du Hdu]|Hdu];
    rewrite Hdu; simpl;
    [|eexists; split; [|split; [exact Hdu | reflexivity]]; repeat constructor].
  destruct (item_get_outcome members "id") as [[i Hi]|Hi]; rewrite Hi;
    simpl;
    [|eexists; split; [|split; [exact Hi | reflexivity]]; repeat constructor].
  exfalso.
  repeat (apply elem_of_cons in Hk0 as [->|Hk0]; [congruence|]).
  by apply elem_of_nil in Hk0.
Qed.

(** An element that is no [dict] stops it with [TypeError]. *)
Lemma task_of_record_type_error (r : record) (w : World) :
  ¬ is_dict r → task_of_record r w = (Raise TypeError, w).
Proof.
  intros Hr. destruct r as [| | | | | |members]; try reflexivity.
  exfalso. apply Hr. by exists members.
Qed.

(** A record with the five keys gives a task, or is [Untyped]. *)
Lemma task_of_record_has_keys (r : record) (w : World) :
  has_task_keys r →
  (task_of_record r w).1 = Untyped
  ∨ ∃ t, (task_of_record r w).1 = Return t.
Proof.
  intros Hkeys. unfold task_of_record.
  destruct (Hkeys "name") as [n Hn]; [repeat constructor|].
  destruct (Hkeys "description") as [d Hd]; [repeat constructor|].
  destruct (Hkeys "priority") as [p Hp]; [repeat constructor|].
  destruct (Hkeys "due_date") as [du Hdu]; [repeat constructor|].
  destruct (Hkeys "id") as [i Hi]; [repeat constructor|].
  rewrite Hn, Hd, Hp, Hdu, Hi. simpl.
  destruct (Task_of_values_outcome n d p du i w)
    as [_ [HU|(n' & d' & p' & du' & tid & HR)]]; [by left|].
  right. eexists. exact HR.
Qed.

(** The comprehension, one element further. *)
Lemma tasks_of_records_cons (r : record) (rs : list record) (w : World) :
  (tasks_of_records (r :: rs) w).1
  = match (task_of_record r w).1 with
    | Return t =>
        match (tasks_of_records rs (task_of_record r w).2).1 with
        | Return ts => Return (t :: ts)
        | Raise e => Raise e
        | Untyped => Untyped
        end
    | Raise e => Raise e
    | Untyped =>
        match (tasks_of_records rs (task_of_record r w).2).1 with
        | Raise e => Raise e
        | Return _ | Untyped => Untyped
        end
    end.
Proof.
  simpl. unfold mbind, M_bind, mret, M_ret.
  destruct (task_of_record r w) as [[t|e|] w1]; simpl; try reflexivity;
    by destruct (tasks_of_records rs w1) as [[ts|e'|] w2].
Qed.

(** The comprehension raises what its first element outside the format
    raises: the elements in front of it, which have the keys, do not end
    it. *)
Lemma tasks_of_records_raise (good : list record) (bad : record)
    (rest : list record) (e : exn) (w : World) :
  Forall has_task_keys good →
  (∀ w1, task_of_record bad w1 = (Raise e, w1)) →
  (tasks_of_records (good ++ bad :: rest) w).1 = Raise e.
Proof.
  intros Hgood Hbad. revert w.
  induction Hgood as [|r good Hr Hgood IH]; intros w.
  - simpl app. by rewrite tasks_of_records_cons, Hbad.
  - rewrite <- app_comm_cons, tasks_of_records_cons, IH.
    by destruct (task_of_record_has_keys r w Hr) as [->|[t ->]].
Qed.

(** Over records that all have the keys it raises nothing. *)
Lemma tasks_of_records_has_keys (rs : list record) (w : World) :
  Forall has_task_keys rs →
  (tasks_of_records rs w).1 = Untyped
  ∨ ∃ ts, (tasks_of_records rs w).1 = Return ts.
Proof.
  intros Hrs. revert w. induction Hrs as [|r rs Hr Hrs IH]; intros w.
  - right. by exists [].
  - rewrite tasks_of_records_cons.
    destruct (task_of_record_has_keys r w Hr) as [->|[t ->]];
      destruct (IH (task_of_record r w).2) as [->|[ts ->]];
      first [by left | right; by eexists].
Qed.

Lemma TaskManager_init_json (f : string) (v : json) (rs : list record)
    (w : World) :
  files w !! f = Some (JSON v) →
  PyVal.iter v = Return rs →
  (TaskManager_init f w).1
  = match (tasks_of_records rs w).1 with
    | Return _ | Raise FileNotFoundError | Raise JSONDecodeError =>
        Return (mkTaskManager f (next_loc (tasks_of_records rs w).2))
    | Raise e => Raise e
    | Untyped => Untyped
    end.
Proof.
  intros Hf Hiter. unfold TaskManager_init, mbind, M_bind, mret, M_ret.
  rewrite (load_tasks_json f v rs w Hf Hiter).
  by destruct (tasks_of_records rs w) as [[ts|[| | | |k]|] w1].
Qed.

Lemma TaskManager_init_not_iterable (f : string) (v : json) (w : World) :
  files w !! f = Some (JSON v) →
  not_iterable v →
  TaskManager_init f w = (Raise TypeError, w).
Proof.
  intros Hf Hv.
  unfold TaskManager_init, load_tasks, open_read, mbind, M_bind, mret, M_ret.
  rewrite Hf. by destruct v.
Qed.

Lemma TaskManager_init_undecodable (f : string) (bytes : list Byte.byte)
    (w : World) :
  files w !! f = Some (Undecodable bytes) →
  TaskManager_init f w = (Raise UnicodeDecodeError, w).
Proof.
  intros Hf.
  unfold TaskManager_init, load_tasks, open_read, mbind, M_bind, mret, M_ret.
  by rewrite Hf.
Qed.

Lemma TaskManager_init_no_write (f : string) (w : World) :
  files (TaskManager_init f w).2 = files w
  ∧ log (TaskManager_init f w).2 = log w.
Proof.
  destruct (files w !! f) as [[bytes|text|v]|] eqn:Hf.
  - by rewrite (TaskManager_init_undecodable f bytes w Hf).
  - by rewrite (TaskManager_init_load f w _ _ (load_tasks_not_json f text w Hf)).
  - destruct (PyVal.iter v) as [rs|e|] eqn:Hiter.
    + unfold TaskManager_init, mbind, M_bind, mret, M_ret.
      rewrite (load_tasks_json f v rs w Hf Hiter).
      pose proof (tasks_of_records_only_drawn rs w)
        as (_ & _ & Hfiles & Hlog & _).
      by destruct (tasks_of_records rs w) as [[ts|[| | | |k]|] w1].
    + rewrite (TaskManager_init_not_iterable f v w Hf); [done|].
      by destruct v.
    + by destruct v.
  - by rewrite (TaskManager_init_load f w _ _ (load_tasks_absent f w Hf)).
Qed.

(** C5, as the code has it.  The constructor of the store ends normally,
    with the empty sequence, when the backing file is absent and when
    [json.load] rejects its text.  It ends normally as well when the file
    holds a JSON value whose elements all are records with [str] values
    under the five keys: the store then holds one task for each record, in
    the order of the records, with the record's values as attributes (an
    "id" that is false apart, which the constructor of [Task] replaces);
    and no exception leaves it when the elements all have the five keys,
    whatever the values.  In the other cases the exception is not caught
    and leaves the constructor: [UnicodeDecodeError] when the bytes of the
    file are not text, [TypeError] when the value is [None], a [bool] or a
    number, and, for the first element that is not a record with the five
    keys, [TypeError] when it is no [dict] and [KeyError] when it lacks a
    key.  The elements are those that the iteration yields: the elements
    of a [list], the keys of a [dict], the characters of a [str].  Loading
    writes nothing. *)
Theorem load_tasks_recovers (w : World) (f : string) :
  let o := (TaskManager_init f w).1 in
  let w' := (TaskManager_init f w).2 in
  (files w !! f = None ∨ (∃ text, files w !! f = Some (NotJSON text)) →
     ∃ self, o = Return self ∧ filename self = f ∧ tasks_of w' self = [])
  ∧ (∀ v rs, files w !! f = Some (JSON v) → PyVal.iter v = Return rs →
       Forall holds_strs rs →
       ∃ self, o = Return self ∧ filename self = f
               ∧ Forall2 (deserialized w) rs (tasks_of w' self)
               ∧ List.length (tasks_of w' self) = List.length rs)
  ∧ (∀ v rs, files w !! f = Some (JSON v) → PyVal.iter v = Return rs →
       Forall has_task_keys rs → ∀ e, o ≠ Raise e)
  ∧ (∀ bytes, files w !! f = Some (Undecodable bytes) →
       o = Raise UnicodeDecodeError)
  ∧ (∀ v, files w !! f = Some (JSON v) → not_iterable v →
       o = Raise TypeError)
  ∧ (∀ v good bad rest, files w !! f = Some (JSON v) →
       PyVal.iter v = Return (good ++ bad :: rest) →
       Forall has_task_keys good →
       (¬ is_dict bad → o = Raise TypeError)
       ∧ (lacks_task_key bad →
            ∃ k, k ∈ task_keys ∧ dict_get bad k = Raise (KeyError k)
                 ∧ o = Raise (KeyError k)))
  ∧ files w' = files w ∧ log w' = log w.
Proof.
  intros o w'.
  split; [|split; [|split; [|split; [|split; [|split]]]]].
  - intros Hbad.
    assert (Hload : load_tasks f w = (Return (next_loc w), (list_new [] w).2)).
    { destruct Hbad as [Hf|[text Hf]];
        eauto using load_tasks_absent, load_tasks_not_json. }
    subst o w'. rewrite (TaskManager_init_load f w _ _ Hload). simpl.
    eexists. split_and!; try reflexivity.
    unfold tasks_of. simpl. by rewrite decide_True.
  - intros v rs Hf Hiter Hrs.
    destruct (tasks_of_records_deserialized rs w Hrs) as (ts & Hts & Hall).
    assert (Hload := load_tasks_json f v rs w Hf Hiter).
    rewrite Hts in Hload.
    subst o w'. rewrite (TaskManager_init_load f w _ _ Hload).
    simpl. eexists. split_and!; try reflexivity.
    + unfold tasks_of. simpl. by rewrite decide_True.
    + unfold tasks_of. simpl. rewrite decide_True by done.
      symmetry. by eapply Forall2_length.
  - intros v rs Hf Hiter Hrs e. subst o.
    rewrite (TaskManager_init_json f v rs w Hf Hiter).
    by destruct (tasks_of_records_has_keys rs w Hrs) as [->|[ts ->]].
  - intros bytes Hf. subst o.
    by rewrite (TaskManager_init_undecodable f bytes w Hf).
  - intros v Hf Hv. subst o.
    by rewrite (TaskManager_init_not_iterable f v w Hf Hv).
  - intros v good bad rest Hf Hiter Hgood. subst o.
    rewrite (TaskManager_init_json f v _ w Hf Hiter). split.
    + intros Hbad.
      by rewrite (tasks_of_records_raise good bad rest TypeError w Hgood
                    (fun w1 => task_of_record_type_error bad w1 Hbad)).
    + intros Hbad.
      destruct (task_of_record_key_error bad Hbad) as (k & Hk & Hget & Hstep).
      exists k. split; [exact Hk|]. split; [exact Hget|].
      by rewrite (tasks_of_records_raise good bad rest _ w Hgood Hstep).
  - apply TaskManager_init_no_write.
Qed.

(** C5, as the claim has it, fails: the file below is present and is a
    JSON document, its one record lacks the key "description", and the
    constructor of the store ends with [KeyError] instead of a store. *)
Lemma load_tasks_missing_key :
  files (world_with_file "tasks.json"
           (Document [dict [("id", "1"); ("name", "Buy milk")]]))
    !! "tasks.json"
  = Some (Document [dict [("id", "1"); ("name", "Buy milk")]])
  ∧ (TaskManager_init "tasks.json"
       (world_with_file "tasks.json"
          (Document [dict [("id", "1"); ("name", "Buy milk")]]))).1
    = Raise (KeyError "description").
Proof. split; reflexivity. Qed.

(** The other files from which the constructor does not recover: the bytes
    FF FE, which are not text in UTF-8, and the JSON texts [null],
    [{"a": 1}] and [[1, 2]]. *)
Example load_tasks_undecodable :
  (TaskManager_init "tasks.json"
     (world_with_file "tasks.json" (Undecodable [Byte.xff; Byte.xfe]))).1
  = Raise UnicodeDecodeError.
Proof. reflexivity. Qed.

Example load_tasks_null :
  (TaskManager_init "tasks.json"
     (world_with_file "tasks.json" (JSON JNull))).1
  = Raise TypeError.
Proof. reflexivity. Qed.

Example load_tasks_object :
  (TaskManager_init "tasks.json"
     (world_with_file "tasks.json" (JSON (JObject [("a", JInt 1)])))).1
  = Raise TypeError.
Proof. reflexivity. Qed.

Example load_tasks_numbers :
  (TaskManager_init "tasks.json"
     (world_with_file "tasks.json" (Document [JInt 1; JInt 2]))).1
  = Raise TypeError.
Proof. reflexivity. Qed.

(** An element outside the format ends the constructor also when the
    elements in front of it are records of the format. *)
Example load_tasks_record_then_number :
  (TaskManager_init "tasks.json"
     (world_with_file "tasks.json" (Document [to_dict buy_milk; JInt 1]))).1
  = Raise TypeError.
Proof. reflexivity. Qed.

(** The JSON text [{}] has no element: the store is empty. *)
Example load_tasks_empty_object :
  ∃ self w',
    TaskManager_init "tasks.json"
      (world_with_file "tasks.json" (JSON (JObject [])))
    = (Return self, w')
    ∧ tasks_of w' self = [].
Proof. do 2 eexists. split; reflexivity. Qed.

(** A record whose "id" is [null] is given a new identifier, as one whose
    "id" is empty is. *)
Example load_tasks_null_id :
  ∃ self w',
    TaskManager_init "tasks.json"
      (world_with_file "tasks.json"
         (Document [JObject [("id", JNull); ("name", JString "Buy milk");
                             ("description", JString "");
                             ("priority", JString "High");
                             ("due_date", JString "2024-01-01")]]))
    = (Return self, w')
    ∧ tasks_of w' self
      = [mkTask "00000000-0000-4000-8000-000000000000" "Buy milk" "" "High"
           "2024-01-01"].
Proof. do 2 eexists. split; reflexivity. Qed.

(** A record with the five keys and a number as name: the constructor
    returns, with a task that the data model does not represent.  When a
    later element lacks a key, the constructor raises all the same. *)
Example load_tasks_number_then_missing_key :
  (TaskManager_init "tasks.json"
     (world_with_file "tasks.json"
        (Document [JObject [("id", JString "1"); ("name", JInt 1);
                            ("description", JString "");
                            ("priority", JString "High");
                            ("due_date", JString "2024-01-01")];
                   dict [("id", "1")]]))).1
  = Raise (KeyError "name").
Proof. reflexivity. Qed.

Example load_tasks_number_as_name :
  (TaskManager_init "tasks.json"
     (world_with_file "tasks.json"
        (Document [JObject [("id", JString "1"); ("name", JInt 1);
                            ("description", JString "");
                            ("priority", JString "High");
                            ("due_date", JString "2024-01-01")]]))).1
  = Untyped.
Proof. reflexivity. Qed.

Example load_tasks_absent_file :
  ∃ self w',
    TaskManager_init "tasks.json" (world_with []) = (Return self, w')
    ∧ tasks_of w' self = [].
Proof. do 2 eexists. split; reflexivity. Qed.

Example load_tasks_two_records :
  ∃ self w',
    TaskManager_init "tasks.json"
      (world_with_file "tasks.json"
         (Document [to_dict pay_rent; to_dict buy_milk]))
    = (Return self, w')
    ∧ tasks_of w' self = [pay_rent; buy_milk].
Proof. do 2 eexists. split; reflexivity. Qed.

(** ** Saving and loading again *)

Lemma task_of_record_to_dict (t : Task) (w : World) :
  PyStr.truthy (id t) = true →
  task_of_record (to_dict t) w = (Return t, w).
Proof.
  intros Ht. destruct t as [i n d p du]. simpl in Ht.
  unfold task_of_record, Task_of_values, Task_init, mbind, M_bind, mret, M_ret.
  simpl. by rewrite Ht.
Qed.

Lemma tasks_of_records_to_dict (ts : list Task) (w : World) :
  Forall constructed ts →
  tasks_of_records (map to_dict ts) w = (Return ts, w).
Proof.
  induction 1 as [|t ts Ht Hts IH]; simpl; [reflexivity|].
  unfold mbind, M_bind, mret, M_ret.
  rewrite task_of_record_to_dict by by apply constructed_truthy.
  by rewrite IH.
Qed.

Lemma reload_after_save (w : World) (self : TaskManager) :
  Forall constructed (tasks_of w self) →
  tasks_of (save_tasks self w).2 self = tasks_of w self
  ∧ reloads_equal (save_tasks self w).2 self.
Proof.
  intros Hts. split; [reflexivity|].
  set (w1 := (save_tasks self w).2).
  assert (Hfile : files w1 !! filename self
                  = Some (Document (map to_dict (tasks_of w self)))).
  { subst w1. run. apply lookup_insert_eq. }
  assert (Hrec := tasks_of_records_to_dict (tasks_of w self) w1 Hts).
  assert (Hload := load_tasks_document (filename self) _ (tasks_of w self) w1
                     Hfile (f_equal fst Hrec)).
  unfold reloads_equal.
  rewrite (TaskManager_init_load _ _ _ _ Hload), Hrec. simpl.
  eexists. split; [reflexivity|].
  unfold tasks_of at 1. simpl. by rewrite decide_True.
Qed.

Lemma update_loop_true (self : TaskManager) (i : string) (t : Task)
    (w : World) (rest : list Task) (n : nat) :
  (update_loop self i t n rest w).1 = true →
  ∃ k, k < List.length rest
       ∧ update_loop self i t n rest w
         = (true, (save_tasks self (list_setitem (tasks self) (n + k) t w).2).2).
Proof.
  revert n. induction rest as [|a rest IH]; intros n Htrue; simpl in *.
  - discriminate.
  - destruct (String.eqb (id a) i).
    + exists 0. split; [lia|]. by rewrite Nat.add_0_r.
    + destruct (IH (S n) Htrue) as (k & Hk & Heq).
      exists (S k). split; [lia|]. rewrite Heq.
      by replace (S n + k) with (n + S k) by lia.
Qed.

(** Every store that the program can reach holds tasks built by the
    constructor: loading builds each task with it, and the three mutating
    operations keep the property when the task they are given has it. *)
Lemma task_of_record_constructed (r : record) (w : World) (t : Task) :
  (task_of_record r w).1 = Return t → constructed t.
Proof.
  unfold task_of_record.
  destruct (_ ≫= _) as [[[[[n d] p] du] i]|e|]; try discriminate.
  destruct (Task_of_values_outcome n d p du i w)
    as [_ [->|(n' & d' & p' & du' & tid & ->)]]; [discriminate|].
  intros [= <-]. by exists n', d', p', du', tid, w.
Qed.

Lemma tasks_of_records_constructed (rs : list record) (w : World)
    (ts : list Task) :
  (tasks_of_records rs w).1 = Return ts → Forall constructed ts.
Proof.
  revert w ts. induction rs as [|r rs IH]; intros w ts; simpl.
  - intros [= <-]. constructor.
  - unfold mbind at 1, M_bind.
    pose proof (task_of_record_constructed r w) as Hhead.
    destruct (task_of_record r w) as [[t|e|] w1]; simpl in *;
      [|discriminate|];
      unfold mbind, M_bind, mret, M_ret; pose proof (IH w1) as Htail;
      destruct (tasks_of_records rs w1) as [[ts'|e|] w2]; simpl in *;
      try discriminate.
    intros [= <-]. constructor; auto.
Qed.

Lemma TaskManager_init_constructed (f : string) (w : World)
    (self : TaskManager) :
  (TaskManager_init f w).1 = Return self →
  Forall constructed (tasks_of (TaskManager_init f w).2 self).
Proof.
  destruct (files w !! f) as [[bytes|text|v]|] eqn:Hf.
  - by rewrite (TaskManager_init_undecodable f bytes w Hf).
  - rewrite (TaskManager_init_load f w _ _ (load_tasks_not_json f text w Hf)).
    intros [= <-]. unfold tasks_of. simpl. rewrite decide_True by done.
    constructor.
  - destruct (PyVal.iter v) as [rs|e|] eqn:Hiter.
    + unfold TaskManager_init, mbind, M_bind, mret, M_ret.
      rewrite (load_tasks_json f v rs w Hf Hiter).
      pose proof (tasks_of_records_constructed rs w) as Hts.
      destruct (tasks_of_records rs w) as [[ts|[| | | |k]|] w1]; simpl in *;
        try discriminate; intros [= <-]; unfold tasks_of; simpl;
        rewrite decide_True by done; auto.
    + rewrite (TaskManager_init_not_iterable f v w Hf); [done|].
      by destruct v.
    + by destruct v.
  - rewrite (TaskManager_init_load f w _ _ (load_tasks_absent f w Hf)).
    intros [= <-]. unfold tasks_of. simpl. rewrite decide_True by done.
    constructor.
Qed.

Lemma add_task_constructed (w : World) (self : TaskManager) (t : Task) :
  Forall constructed (tasks_of w self) → constructed t →
  Forall constructed (tasks_of (add_task self t w).2 self).
Proof.
  intros Hts Ht. run. rewrite decide_True by done.
  apply Forall_app. split; [exact Hts | by constructor].
Qed.

Lemma delete_task_constructed (w : World) (self : TaskManager) (i : string) :
  Forall constructed (tasks_of w self) →
  Forall constructed
    (tasks_of (delete_task self i w).2 (delete_task self i w).1).
Proof.
  intros Hts. run. rewrite decide_True by done.
  rewrite Forall_forall in Hts. apply Forall_forall. intros t Hin.
  apply list_elem_of_In, filter_In in Hin. apply Hts, list_elem_of_In, Hin.
Qed.

Lemma update_loop_false (self : TaskManager) (i : string) (t : Task)
    (w : World) (rest : list Task) (n : nat) :
  (update_loop self i t n rest w).1 = false →
  update_loop self i t n rest w = (false, w).
Proof.
  revert n. induction rest as [|a rest IH]; intros n; simpl.
  - reflexivity.
  - destruct (String.eqb (id a) i); [discriminate | apply IH].
Qed.

Lemma update_task_constructed (w : World) (self : TaskManager) (i : string)
    (t : Task) :
  Forall constructed (tasks_of w self) → constructed t →
  Forall constructed (tasks_of (update_task self i t w).2 self).
Proof.
  intros Hts Ht. unfold update_task, mbind, M_bind, list_read. simpl.
  destruct (update_loop self i t 0 (heap w (tasks self)) w).1 eqn:Hb.
  - destruct (update_loop_true self i t w _ 0 Hb) as (k & _ & ->).
    run. rewrite decide_True by done. by apply Forall_insert.
  - by rewrite (update_loop_false self i t w _ 0 Hb).
Qed.

(** C2. A sequence of tasks built by the constructor comes back equal,
    task by task and in order, when its records are deserialized; so a
    store that is saved and constructed again on the same file holds an
    equal sequence, and so does a new store constructed after [add_task],
    after an [update_task] that returned [True] and after [delete_task]. *)
Theorem save_load_round_trip (ts : list Task) :
  Forall constructed ts →
  (∀ w, (tasks_of_records (map to_dict ts) w).1 = Return ts)
  ∧ (∀ w self, tasks_of w self = ts →
       tasks_of (save_tasks self w).2 self = ts
       ∧ reloads_equal (save_tasks self w).2 self
       ∧ (∀ t, constructed t → reloads_equal (add_task self t w).2 self)
       ∧ (∀ i t, constructed t → (update_task self i t w).1 = true →
            reloads_equal (update_task self i t w).2 self)
       ∧ (∀ i, reloads_equal (delete_task self i w).2
                 (delete_task self i w).1)).
Proof.
  intros Hts. split.
  { intros w. by rewrite tasks_of_records_to_dict. }
  intros w self <-.
  destruct (reload_after_save w self Hts) as [Hsame Hreload].
  split_and!; try assumption.
  - intros t Ht.
    set (w1 := (list_append (tasks self) t w).2).
    change (add_task self t w).2 with (save_tasks self w1).2.
    apply reload_after_save. subst w1. run. rewrite decide_True by done.
    apply Forall_app. split; [exact Hts | by constructor].
  - intros i t Ht Htrue.
    assert (Hrun : ∃ k, update_task self i t w
                        = (true, (save_tasks self
                                    (list_setitem (tasks self) k t w).2).2)).
    { unfold update_task, mbind, M_bind, list_read in *. simpl in *.
      destruct (update_loop_true self i t w _ 0 Htrue) as (k & _ & Heq).
      by exists k. }
    destruct Hrun as [k ->].
    change (reloads_equal
              (save_tasks self (list_setitem (tasks self) k t w).2).2 self).
    apply reload_after_save. run. rewrite decide_True by done.
    by apply Forall_insert.
  - intros i.
    set (keep := fun task : Task => negb (String.eqb (id task) i)).
    set (w1 := (list_new (List.filter keep (tasks_of w self)) w).2).
    set (self' := mkTaskManager (filename self) (next_loc w)).
    change (delete_task self i w).2 with (save_tasks self' w1).2.
    change (delete_task self i w).1 with self'.
    apply reload_after_save. subst w1 self'. run.
    rewrite decide_True by done.
    rewrite Forall_forall in Hts. apply Forall_forall. intros t Hin.
    apply list_elem_of_In, filter_In in Hin. apply Hts, list_elem_of_In, Hin.
Qed.

(** The constructor is what keeps the identifiers non-empty: a record
    whose "id" is empty is given a new identifier when it is read. *)
Example empty_id_record_gets_uuid :
  (tasks_of_records [dict [("id", ""); ("name", "Buy milk");
                           ("description", ""); ("priority", "High");
                           ("due_date", "2024-01-01")]]
     (world_with [])).1
  = Return [mkTask "00000000-0000-4000-8000-000000000000" "Buy milk" ""
              "High" "2024-01-01"].
Proof. reflexivity. Qed.

Lemma save_load_round_trip_witness :
  Forall constructed [buy_milk; pay_rent]
  ∧ (tasks_of_records (map to_dict [buy_milk; pay_rent]) (world_with [])).1
    = Return [buy_milk; pay_rent]
  ∧ reloads_equal
      (add_task store0 call_mum (world_with [buy_milk; pay_rent])).2 store0.
Proof.
  assert (Hc : ∀ t, PyStr.truthy (id t) = true → constructed t)
    by (intros t; apply constructed_truthy).
  assert (Hts : Forall constructed [buy_milk; pay_rent])
    by (repeat constructor; by apply Hc).
  destruct (save_load_round_trip [buy_milk; pay_rent] Hts) as [Hround Hstore].
  split_and!.
  - exact Hts.
  - apply Hround.
  - apply (Hstore (world_with [buy_milk; pay_rent]) store0 eq_refl).
    by apply Hc.
Defined.

(** ** The queries and the store's own list object *)

Lemma list_write_other (r l : loc) (v : list Task) (w : World) :
  l ≠ r → heap (list_write r v w).2 l = heap w l.
Proof. intros Hne. run. by rewrite decide_False. Qed.

Lemma list_append_write (r : loc) (t : Task) (w : World) :
  list_append r t w = list_write r (heap w r ++ [t]) w.
Proof. reflexivity. Qed.

Lemma list_setitem_write (r : loc) (i : nat) (t : Task) (w : World) :
  list_setitem r i t w = list_write r (<[i := t]> (heap w r)) w.
Proof. reflexivity. Qed.

(** The location that [filter_tasks] returns: the store's own list object
    when no criterion is given, a list object made during the call
    otherwise. *)
Lemma filter_tasks_loc (w : World) (self : TaskManager) (n p d : string) :
  let r := (filter_tasks self n p d w).1 in
  let w' := (filter_tasks self n p d w).2 in
  (n = "" ∧ p = "All" ∧ d = "" ∧ r = tasks self ∧ w' = w)
  ∨ ((n ≠ "" ∨ p ≠ "All" ∨ d ≠ "") ∧ (next_loc w ≤ r)%nat).
Proof.
  unfold filter_tasks, narrow, mbind, M_bind, mret, M_ret, list_read, list_new.
  destruct (PyStr.truthy n) eqn:Hn, (String.eqb_spec p "All") as [Hp|Hp],
    (PyStr.truthy d) eqn:Hd; simpl;
    try (right; split; [|lia]);
    try (apply truthy_nonempty in Hn); try (apply truthy_nonempty in Hd);
    try tauto.
  left. destruct n, d; try discriminate. by split_and!.
Qed.

(** C6, as the code has it.  For a store whose list object is allocated,
    [filter_tasks] and [sort_tasks] leave the store's sequence, the files
    and the log of writes as they were.  [sort_tasks] always returns a list
    object of its own, and so does [filter_tasks] when a name, a priority
    other than "All" or a due date is given: writing to that object leaves
    the store's sequence as it was.  With no criterion, [filter_tasks]
    returns the store's own list object. *)
Theorem queries_read_only (w : World) (self : TaskManager) (n p d : string)
    (key : attr) :
  tasks self < next_loc w →
  (let r := (filter_tasks self n p d w).1 in
   let w' := (filter_tasks self n p d w).2 in
   tasks_of w' self = tasks_of w self
   ∧ files w' = files w ∧ log w' = log w
   ∧ (n ≠ "" ∨ p ≠ "All" ∨ d ≠ "" →
        r ≠ tasks self
        ∧ (∀ v, tasks_of (list_write r v w').2 self = tasks_of w self)
        ∧ (∀ t, tasks_of (list_append r t w').2 self = tasks_of w self)
        ∧ (∀ i t, tasks_of (list_setitem r i t w').2 self = tasks_of w self))
   ∧ (n = "" → p = "All" → d = "" → r = tasks self))
  ∧ (let r := (sort_tasks self key w).1 in
     let w' := (sort_tasks self key w).2 in
     tasks_of w' self = tasks_of w self
     ∧ files w' = files w ∧ log w' = log w
     ∧ r ≠ tasks self
     ∧ (∀ v, tasks_of (list_write r v w').2 self = tasks_of w self)
     ∧ (∀ t, tasks_of (list_append r t w').2 self = tasks_of w self)
     ∧ (∀ i t, tasks_of (list_setitem r i t w').2 self = tasks_of w self)).
Proof.
  intros Hvalid. split.
  - intros r w'.
    destruct (narrow_in_order_effect n p d [by_name; by_priority; by_due_date]
                (tasks self) w) as (_ & Hfiles & Hlog & _ & Hheap).
    rewrite <- filter_tasks_in_order in Hfiles, Hlog, Hheap.
    fold w' in Hfiles, Hlog, Hheap.
    assert (Hsame : tasks_of w' self = tasks_of w self)
      by (apply Hheap, Hvalid).
    split_and!; try assumption.
    + intros Hactive.
      assert (Hne : tasks self ≠ r).
      { destruct (filter_tasks_loc w self n p d) as [(-> & -> & -> & _)|[_ Hr]].
        - destruct Hactive as [?|[?|?]]; congruence.
        - fold r in Hr. lia. }
      assert (Hwrite : ∀ v, tasks_of (list_write r v w').2 self
                            = tasks_of w self).
      { intros v. unfold tasks_of at 1.
        rewrite list_write_other by exact Hne. exact Hsame. }
      split_and!; [congruence | exact Hwrite | |].
      * intros t. rewrite list_append_write. apply Hwrite.
      * intros i t. rewrite list_setitem_write. apply Hwrite.
    + intros -> -> ->. reflexivity.
  - intros r w'.
    destruct (sort_tasks_effect self key w) as (Hr & _ & Hfiles & Hlog & Hheap).
    fold r in Hr. fold w' in Hfiles, Hlog, Hheap.
    assert (Hsame : tasks_of w' self = tasks_of w self)
      by (apply Hheap, Hvalid).
    assert (Hne : tasks self ≠ r) by lia.
    assert (Hwrite : ∀ v, tasks_of (list_write r v w').2 self
                          = tasks_of w self).
    { intros v. unfold tasks_of at 1.
      rewrite list_write_other by exact Hne. exact Hsame. }
    split_and!; try assumption; [congruence | |].
    + intros t. rewrite list_append_write. apply Hwrite.
    + intros i t. rewrite list_setitem_write. apply Hwrite.
Qed.

Lemma queries_read_only_witness :
  tasks store0 < next_loc (world_with [buy_milk; pay_rent])
  ∧ (filter_tasks store0 "" "High" "" (world_with [buy_milk; pay_rent])).1
    ≠ tasks store0
  ∧ tasks_of
      (list_append
         (filter_tasks store0 "" "High" "" (world_with [buy_milk; pay_rent])).1
         call_mum
         (filter_tasks store0 "" "High" "" (world_with [buy_milk; pay_rent])).2).2
      store0
    = [buy_milk; pay_rent].
Proof.
  assert (Hvalid : tasks store0 < next_loc (world_with [buy_milk; pay_rent]))
    by (simpl; lia).
  destruct (queries_read_only (world_with [buy_milk; pay_rent]) store0
              "" "High" "" a_name Hvalid) as [(_ & _ & _ & Hown & _) _].
  destruct Hown as (Hne & _ & Happend & _); [right; left; discriminate|].
  split_and!.
  - simpl. lia.
  - exact Hne.
  - apply Happend.
Defined.

(** C6, as the claim has it, fails: with no criterion [filter_tasks]
    returns the store's own list object, and an [append] through the
    returned list lengthens the store's sequence. *)
Lemma filter_tasks_returns_store_list :
  (filter_tasks store0 "" "All" "" (world_with [buy_milk])).1 = tasks store0
  ∧ tasks_of (filter_tasks store0 "" "All" "" (world_with [buy_milk])).2 store0
    = [buy_milk]
  ∧ tasks_of
      (list_append
         (filter_tasks store0 "" "All" "" (world_with [buy_milk])).1
         pay_rent
         (filter_tasks store0 "" "All" "" (world_with [buy_milk])).2).2
      store0
    = [buy_milk; pay_rent].
Proof. split_and!; reflexivity. Qed.

(** * Further properties of the store *)

(** ** Unique identifiers *)

Lemma filter_sublist {A} (f : A → bool) (l : list A) :
  List.filter f l `sublist_of` l.
Proof.
  induction l as [|a l IH]; simpl; [constructor|].
  destruct (f a); by constructor.
Qed.

Lemma map_sublist {A B} (f : A → B) (l1 l2 : list A) :
  l1 `sublist_of` l2 → map f l1 `sublist_of` map f l2.
Proof. induction 1; simpl; by constructor. Qed.

Lemma map_insert {A B} (f : A → B) (l : list A) (k : nat) (x : A) :
  map f (<[k := x]> l) = <[k := f x]> (map f l).
Proof.
  revert k. induction l as [|a l IH]; intros [|k]; simpl; try reflexivity.
  by rewrite IH.
Qed.

Lemma map_lookup {A B} (f : A → B) (l : list A) (k : nat) (x : A) :
  l !! k = Some x → map f l !! k = Some (f x).
Proof.
  revert k. induction l as [|a l IH]; intros [|k]; simpl; try discriminate.
  - by intros [= ->].
  - apply IH.
Qed.

(** A successful [update_loop] has replaced a task with the given [id]. *)
Lemma update_loop_true_at (self : TaskManager) (i : string) (t : Task)
    (w : World) (rest : list Task) (n : nat) :
  (update_loop self i t n rest w).1 = true →
  ∃ k a, rest !! k = Some a ∧ id a = i
         ∧ update_loop self i t n rest w
           = (true,
              (save_tasks self (list_setitem (tasks self) (n + k) t w).2).2).
Proof.
  revert n. induction rest as [|a rest IH]; intros n Htrue; simpl in *.
  - discriminate.
  - destruct (String.eqb_spec (id a) i) as [Heq|Hne].
    + exists 0, a. split_and!; [done | done |]. by rewrite Nat.add_0_r.
    + destruct (IH (S n) Htrue) as (k & b & Hk & Hb & Heq).
      exists (S k), b. split_and!; [done | done |]. rewrite Heq.
      by replace (S n + k) with (n + S k) by lia.
Qed.

(** X1. A store in which the identifiers are pairwise distinct stays so
    under [delete_task], under [update_task] with a replacement that has
    the target's [id], and under [add_task] of a task whose [id] no stored
    task has. *)
Theorem unique_ids_kept (w : World) (self : TaskManager) :
  unique_ids (tasks_of w self) →
  (∀ i, unique_ids (tasks_of (delete_task self i w).2 (delete_task self i w).1))
  ∧ (∀ i t, id t = i →
       unique_ids (tasks_of (update_task self i t w).2 self))
  ∧ (∀ t, (∀ a, a ∈ tasks_of w self → id a ≠ id t) →
       unique_ids (tasks_of (add_task self t w).2 self)).
Proof.
  unfold unique_ids. intros Huniq. split_and!.
  - intros i. run. rewrite decide_True by done.
    eapply sublist_NoDup; [exact Huniq | apply map_sublist, filter_sublist].
  - intros i t Hid.
    unfold update_task, mbind, M_bind, list_read. simpl.
    destruct (update_loop self i t 0 (heap w (tasks self)) w).1 eqn:Hb.
    + destruct (update_loop_true_at self i t w _ 0 Hb)
        as (k & a & Hk & Ha & ->).
      run. rewrite decide_True by done.
      rewrite map_insert, list_insert_id; [exact Huniq|].
      rewrite (map_lookup id _ k a Hk). congruence.
    + by rewrite (update_loop_false self i t w _ 0 Hb).
  - intros t Hfresh. run. rewrite decide_True by done.
    rewrite map_app. simpl. apply NoDup_app. split_and!.
    + exact Huniq.
    + intros x Hx Hx'. apply list_elem_of_singleton in Hx' as ->.
      apply list_elem_of_In, in_map_iff in Hx as (a & Ha & Hin).
      apply (Hfresh a); [by apply list_elem_of_In | exact Ha].
    + apply NoDup_singleton.
Qed.

Lemma unique_ids_kept_witness :
  unique_ids [buy_milk; pay_rent]
  ∧ unique_ids
      (tasks_of (update_task store0 "2" (mkTask "2" "Pay rent" "flat" "High"
                                           "2024-02-05")
                   (world_with [buy_milk; pay_rent])).2 store0)
  ∧ unique_ids
      (tasks_of (add_task store0 call_mum (world_with [buy_milk; pay_rent])).2
         store0).
Proof.
  assert (Huniq : unique_ids (tasks_of (world_with [buy_milk; pay_rent]) store0)).
  { unfold unique_ids. simpl.
    repeat constructor; intros H;
      repeat (apply elem_of_cons in H as [H|H]; [discriminate|]);
      by apply elem_of_nil in H. }
  destruct (unique_ids_kept (world_with [buy_milk; pay_rent]) store0 Huniq)
    as (_ & Hupdate & Hadd).
  split_and!.
  - exact Huniq.
  - by apply Hupdate.
  - apply Hadd. intros a Ha. simpl in Ha.
    repeat (apply elem_of_cons in Ha as [->|Ha]; [discriminate|]).
    by apply elem_of_nil in Ha.
Defined.

(** ** [delete_task] and [add_task] together *)

Lemma filter_id_fresh (i : string) (ts : list Task) :
  (∀ a, a ∈ ts → id a ≠ i) →
  List.filter (fun t => negb (String.eqb (id t) i)) ts = ts.
Proof.
  induction ts as [|a ts IH]; intros Hno; simpl; [reflexivity|].
  destruct (String.eqb_spec (id a) i) as [Heq|_].
  - exfalso. apply (Hno a); [left | exact Heq].
  - simpl. f_equal. apply IH. intros b Hb. apply Hno. by right.
Qed.

Lemma filter_id_unique (i : string) (ts : list Task) (k : nat) (a : Task) :
  unique_ids ts → ts !! k = Some a → id a = i →
  List.filter (fun t => negb (String.eqb (id t) i)) ts = delete k ts.
Proof.
  unfold unique_ids. revert k.
  induction ts as [|b ts IH]; intros k Huniq Hk Ha; [discriminate|].
  simpl in Huniq. apply NoDup_cons in Huniq as [Hb Huniq].
  destruct k as [|k]; simpl in *.
  - injection Hk as ->. rewrite (proj2 (String.eqb_eq _ _) Ha). simpl.
    apply filter_id_fresh. intros c Hc Hid. apply Hb.
    apply list_elem_of_In, in_map_iff. exists c.
    split; [congruence | by apply list_elem_of_In].
  - destruct (String.eqb_spec (id b) i) as [Heq|_].
    + exfalso. apply Hb. apply list_elem_of_In, in_map_iff. exists a.
      split; [congruence|].
      apply list_elem_of_In. eapply list_elem_of_lookup_2. exact Hk.
    + simpl. f_equal. by apply IH.
Qed.

(** X2. In a store with pairwise distinct identifiers, [delete_task] with
    the [id] of a stored task takes out that one task: the sequence is the
    old one without the position of the task, one shorter, and no task with
    that [id] is left. *)
Theorem delete_task_removes_one (w : World) (self : TaskManager) (k : nat)
    (a : Task) :
  unique_ids (tasks_of w self) → tasks_of w self !! k = Some a →
  let self' := (delete_task self (id a) w).1 in
  let w' := (delete_task self (id a) w).2 in
  tasks_of w' self' = delete k (tasks_of w self)
  ∧ S (List.length (tasks_of w' self')) = List.length (tasks_of w self)
  ∧ (∀ b, b ∈ tasks_of w' self' → id b ≠ id a).
Proof.
  intros Huniq Hk self' w'.
  assert (Heq : tasks_of w' self' = delete k (tasks_of w self)).
  { subst self' w'. run. rewrite decide_True by done.
    by apply (filter_id_unique (id a) _ k a). }
  split_and!.
  - exact Heq.
  - rewrite Heq, length_delete by eauto.
    apply lookup_lt_Some in Hk. unfold tasks_of in *. lia.
  - intros b Hb. subst self' w'. run. rewrite decide_True in Hb by done.
    apply list_elem_of_In, filter_In in Hb as [_ Hb].
    by destruct (String.eqb_spec (id b) (id a)).
Qed.

Lemma delete_task_removes_one_witness :
  unique_ids [buy_milk; pay_rent; call_mum]
  ∧ tasks_of (delete_task store0 "2"
                (world_with [buy_milk; pay_rent; call_mum])).2
      (delete_task store0 "2" (world_with [buy_milk; pay_rent; call_mum])).1
    = [buy_milk; call_mum].
Proof.
  assert (Huniq : unique_ids
            (tasks_of (world_with [buy_milk; pay_rent; call_mum]) store0)).
  { unfold unique_ids. simpl.
    repeat constructor; intros H;
      repeat (apply elem_of_cons in H as [H|H]; [discriminate|]);
      by apply elem_of_nil in H. }
  split; [exact Huniq|].
  exact (proj1 (delete_task_removes_one
                  (world_with [buy_milk; pay_rent; call_mum]) store0 1
                  pay_rent Huniq eq_refl)).
Defined.

(** X3. Adding a task whose [id] no stored task has and then deleting by
    that [id] gives back the sequence from before the two calls, and the
    backing file then holds that sequence; each of the two calls has
    written the file once. *)
Theorem add_then_delete (w : World) (self : TaskManager) (t : Task) :
  (∀ a, a ∈ tasks_of w self → id a ≠ id t) →
  let w1 := (add_task self t w).2 in
  let self2 := (delete_task self (id t) w1).1 in
  let w2 := (delete_task self (id t) w1).2 in
  tasks_of w2 self2 = tasks_of w self
  ∧ files w2 !! filename self
    = Some (Document (map to_dict (tasks_of w self)))
  ∧ ∃ e1 e2, log w2 = e2 :: e1 :: log w.
Proof.
  intros Hfresh w1 self2 w2.
  assert (Heq : List.filter (fun a => negb (String.eqb (id a) (id t)))
                  (tasks_of w self ++ [t]) = tasks_of w self).
  { rewrite List.filter_app, filter_id_fresh by exact Hfresh. simpl.
    rewrite String.eqb_refl. simpl. apply app_nil_r. }
  subst w1 self2 w2. run. rewrite !decide_True by done.
  rewrite Heq. split_and!; try reflexivity.
  - apply lookup_insert_eq.
  - by do 2 eexists.
Qed.

Lemma add_then_delete_witness :
  (∀ a, a ∈ [buy_milk; pay_rent] → id a ≠ id call_mum)
  ∧ tasks_of
      (delete_task store0 "3"
         (add_task store0 call_mum (world_with [buy_milk; pay_rent])).2).2
      (delete_task store0 "3"
         (add_task store0 call_mum (world_with [buy_milk; pay_rent])).2).1
    = [buy_milk; pay_rent].
Proof.
  assert (Hfresh : ∀ a, a ∈ tasks_of (world_with [buy_milk; pay_rent]) store0
                        → id a ≠ id call_mum).
  { intros a Ha. simpl in Ha.
    repeat (apply elem_of_cons in Ha as [->|Ha]; [discriminate|]).
    by apply elem_of_nil in Ha. }
  split; [exact Hfresh|].
  exact (proj1 (add_then_delete (world_with [buy_milk; pay_rent]) store0
                  call_mum Hfresh)).
Defined.

(** X4. [delete_task] twice with the same [id] leaves the sequence that
    the first call left; the second call writes the file again, with the
    same document. *)
Theorem delete_task_twice (w : World) (self : TaskManager) (i : string) :
  let self1 := (delete_task self i w).1 in
  let w1 := (delete_task self i w).2 in
  let self2 := (delete_task self1 i w1).1 in
  let w2 := (delete_task self1 i w1).2 in
  tasks_of w2 self2 = tasks_of w1 self1
  ∧ files w2 = files w1
  ∧ log w2
    = Wrote (filename self) (Document (map to_dict (tasks_of w1 self1)))
      :: log w1.
Proof.
  assert (Hidem : ∀ ts : list Task,
            List.filter (fun a => negb (String.eqb (id a) i))
              (List.filter (fun a => negb (String.eqb (id a) i)) ts)
            = List.filter (fun a => negb (String.eqb (id a) i)) ts).
  { intros ts. apply filter_id_fresh. intros a Ha.
    apply list_elem_of_In, filter_In in Ha as [_ Ha].
    by destruct (String.eqb_spec (id a) i). }
  run. rewrite !decide_True by done. rewrite Hidem.
  split_and!; try reflexivity.
  by rewrite insert_insert_eq.
Qed.

(** ** [sort_tasks] on a sorted store *)

Lemma le_ltb_false (a b : string) : String.le a b → String.ltb b a = false.
Proof.
  unfold String.le, String.leb, String.ltb.
  rewrite (String.compare_antisym b a).
  by destruct (String.compare a b).
Qed.

Lemma sorted_fixed {A} (key : A → string) (l : list A) :
  StronglySorted (key_le key) l → sorted key l = l.
Proof.
  induction 1 as [|x l Hl IH Hx]; [reflexivity|].
  change (sorted key (x :: l)) with (insert_by key x (sorted key l)).
  rewrite IH. destruct l as [|y l]; [reflexivity|]. simpl.
  apply Forall_cons in Hx as [Hxy _]. by rewrite (le_ltb_false _ _ Hxy).
Qed.

(** X5. When the store's sequence is already in non-decreasing order of an
    attribute, [sort_tasks] by that attribute returns an equal sequence;
    so sorting the result of [sort_tasks] once more by the same attribute
    changes nothing. *)
Theorem sort_tasks_sorted_store (w : World) (self : TaskManager) (key : attr) :
  StronglySorted (key_le (fun t => getattr t key)) (tasks_of w self) →
  heap (sort_tasks self key w).2 (sort_tasks self key w).1 = tasks_of w self
  ∧ sorted (fun t => getattr t key)
      (heap (sort_tasks self key w).2 (sort_tasks self key w).1)
    = tasks_of w self.
Proof.
  intros Hs.
  destruct (sort_tasks_effect self key w) as (_ & Hout & _).
  rewrite Hout. fold (tasks_of w self).
  by rewrite !sorted_fixed.
Qed.

Lemma sort_tasks_sorted_store_witness :
  StronglySorted (key_le (fun t => getattr t a_due_date))
    [buy_milk; call_mum; pay_rent]
  ∧ heap (sort_tasks store0 a_due_date
            (world_with [buy_milk; call_mum; pay_rent])).2
         (sort_tasks store0 a_due_date
            (world_with [buy_milk; call_mum; pay_rent])).1
    = [buy_milk; call_mum; pay_rent].
Proof.
  assert (Hs : StronglySorted (key_le (fun t => getattr t a_due_date))
                 (tasks_of (world_with [buy_milk; call_mum; pay_rent]) store0)).
  { repeat constructor. }
  split; [exact Hs|].
  exact (proj1 (sort_tasks_sorted_store
                  (world_with [buy_milk; call_mum; pay_rent]) store0
                  a_due_date Hs)).
Defined.

(** ** The name filter and letter case *)

Lemma lower_char_idempotent (c : ascii) :
  PyStr.lower_char (PyStr.lower_char c) = PyStr.lower_char c.
Proof.
  destruct c as [[] [] [] [] [] [] [] []]; reflexivity.
Qed.

Lemma lower_idempotent (s : string) : PyStr.lower (PyStr.lower s) = PyStr.lower s.
Proof.
  induction s as [|c s IH]; simpl; [reflexivity|].
  by rewrite lower_char_idempotent, IH.
Qed.

Lemma truthy_lower (s : string) : PyStr.truthy (PyStr.lower s) = PyStr.truthy s.
Proof. by destruct s. Qed.

(** X6. The result of [filter_tasks] depends on the name filter only
    through its lower-case form: two name filters that differ in letter
    case only select the same tasks, and so does the lower-case form of a
    filter. *)
Theorem filter_tasks_case_insensitive (w : World) (self : TaskManager)
    (n n' p d : string) :
  PyStr.lower n = PyStr.lower n' →
  heap (filter_tasks self n p d w).2 (filter_tasks self n p d w).1
  = heap (filter_tasks self n' p d w).2 (filter_tasks self n' p d w).1
  ∧ heap (filter_tasks self (PyStr.lower n) p d w).2
         (filter_tasks self (PyStr.lower n) p d w).1
    = heap (filter_tasks self n p d w).2 (filter_tasks self n p d w).1.
Proof.
  intros Hcase.
  assert (Hdep : ∀ m m', PyStr.lower m = PyStr.lower m' →
            heap (filter_tasks self m p d w).2 (filter_tasks self m p d w).1
            = heap (filter_tasks self m' p d w).2
                   (filter_tasks self m' p d w).1).
  { intros m m' Hm. rewrite !filter_tasks_in_order.
    destruct (narrow_in_order_effect m p d [by_name; by_priority; by_due_date]
                (tasks self) w) as (-> & _).
    destruct (narrow_in_order_effect m' p d [by_name; by_priority; by_due_date]
                (tasks self) w) as (-> & _).
    apply filter_ext. intros t. simpl. unfold name_test.
    by rewrite <- (truthy_lower m), <- (truthy_lower m'), Hm. }
  split; [by apply Hdep|].
  apply Hdep, lower_idempotent.
Qed.

Lemma filter_tasks_case_insensitive_witness :
  PyStr.lower "MUM" = PyStr.lower "mum"
  ∧ heap (filter_tasks store0 "MUM" "All" ""
            (world_with [buy_milk; call_mum])).2
         (filter_tasks store0 "MUM" "All" ""
            (world_with [buy_milk; call_mum])).1
    = heap (filter_tasks store0 "mum" "All" ""
              (world_with [buy_milk; call_mum])).2
           (filter_tasks store0 "mum" "All" ""
              (world_with [buy_milk; call_mum])).1.
Proof.
  split; [reflexivity|].
  exact (proj1 (filter_tasks_case_insensitive (world_with [buy_milk; call_mum])
                  store0 "MUM" "mum" "All" "" eq_refl)).
Defined.

(** ** Identifiers after loading *)

(** X7. Whatever document the backing file holds, a store that the
    constructor returns holds no task with an empty [id]: where a record
    has an empty "id", the task has a generated one. *)
Theorem loaded_ids_nonempty (w : World) (f : string) (self : TaskManager) :
  (TaskManager_init f w).1 = Return self →
  Forall (fun t => id t ≠ "") (tasks_of (TaskManager_init f w).2 self).
Proof.
  intros Hinit.
  eapply Forall_impl; [exact (TaskManager_init_constructed f w self Hinit)|].
  intros t Ht. by apply truthy_nonempty, constructed_truthy.
Qed.

Lemma loaded_ids_nonempty_witness :
  Forall (fun t => id t ≠ "")
    [mkTask "00000000-0000-4000-8000-000000000000" "Buy milk" "" "High"
       "2024-01-01"].
Proof.
  exact (loaded_ids_nonempty
           (world_with_file "tasks.json"
              (Document [dict [("id", ""); ("name", "Buy milk");
                               ("description", ""); ("priority", "High");
                               ("due_date", "2024-01-01")]]))
           "tasks.json" (mkTaskManager "tasks.json" 0) eq_refl).
Defined.

(** ** Sorting by due date *)

Lemma append_empty_r (s : string) : s +:+ "" = s.
Proof. induction s as [|c s IH]; [reflexivity|]. by rewrite append_cons, IH. Qed.

Lemma compare_cons (c c' : ascii) (s s' : string) :
  String.compare (String c s) (String c' s')
  = match Ascii.compare c c' with
    | Eq => String.compare s s'
    | ne => ne
    end.
Proof. reflexivity. Qed.

Lemma compare_digit_char (q q' : nat) :
  q < 10 → q' < 10 →
  Ascii.compare (digit_char q) (digit_char q') = Nat.compare q q'.
Proof.
  intros Hq Hq'. unfold Ascii.compare, digit_char, ascii_of_nat.
  rewrite !N_ascii_embedding by lia.
  rewrite <- Nat2N.inj_compare.
  destruct (Nat.compare_spec q q'), (Nat.compare_spec (48 + q) (48 + q'));
    try reflexivity; lia.
Qed.

(** Two numbers written with the same number of digits compare as
    strings the way they compare as numbers. *)
Lemma compare_decimal (k : nat) :
  ∀ (n n' : nat) (s s' : string),
    n < 10 ^ k → n' < 10 ^ k →
    String.compare (decimal k n +:+ s) (decimal k n' +:+ s')
    = match Nat.compare n n' with
      | Eq => String.compare s s'
      | ne => ne
      end.
Proof.
  induction k as [|k IH]; intros n n' s s' Hn Hn'.
  - simpl in Hn, Hn'. assert (n = 0) as -> by lia. assert (n' = 0) as -> by lia.
    reflexivity.
  - assert (Hpos : 0 < 10 ^ k) by (apply Nat.neq_0_lt_0, Nat.pow_nonzero; lia).
    rewrite Nat.pow_succ_r' in Hn, Hn'.
    pose proof (Nat.div_mod_eq n (10 ^ k)) as Hdm.
    pose proof (Nat.div_mod_eq n' (10 ^ k)) as Hdm'.
    pose proof (Nat.mod_upper_bound n (10 ^ k) ltac:(lia)) as Hr.
    pose proof (Nat.mod_upper_bound n' (10 ^ k) ltac:(lia)) as Hr'.
    assert (Hq : n / 10 ^ k < 10) by (apply Nat.Div0.div_lt_upper_bound; lia).
    assert (Hq' : n' / 10 ^ k < 10) by (apply Nat.Div0.div_lt_upper_bound; lia).
    change (decimal (S k) n)
      with (String (digit_char (n / 10 ^ k)) (decimal k (n mod 10 ^ k))).
    change (decimal (S k) n')
      with (String (digit_char (n' / 10 ^ k)) (decimal k (n' mod 10 ^ k))).
    rewrite !append_cons, compare_cons, compare_digit_char by assumption.
    rewrite IH by assumption.
    clear IH.
    generalize dependent (n / 10 ^ k). generalize dependent (n' / 10 ^ k).
    generalize dependent (n mod 10 ^ k). generalize dependent (n' mod 10 ^ k).
    generalize dependent (10 ^ k).
    intros P Hn Hn' HP r' Hr' r Hr q' Hdm' Hq' q Hdm Hq.
    destruct (Nat.compare_spec q q') as [Hqq|Hqq|Hqq].
    + subst q'. destruct (Nat.compare_spec r r'), (Nat.compare_spec n n');
        try reflexivity; lia.
    + assert (P * (q + 1) ≤ P * q')%nat by (apply Nat.mul_le_mono_l; lia).
      destruct (Nat.compare_spec n n'); try reflexivity; lia.
    + assert (P * (q' + 1) ≤ P * q)%nat by (apply Nat.mul_le_mono_l; lia).
      destruct (Nat.compare_spec n n'); try reflexivity; lia.
Qed.

Lemma compare_dash (s s' : string) :
  String.compare ("-" +:+ s) ("-" +:+ s') = String.compare s s'.
Proof. reflexivity. Qed.

(** Dates written as YYYY-MM-DD are in string order exactly when they are
    in calendar order. *)
Lemma iso_date_le (a b : date) :
  fits_iso a → fits_iso b →
  String.le (iso_date a) (iso_date b) ↔ not_after a b.
Proof.
  destruct a as [[y m] d], b as [[y' m'] d'].
  intros (Hy & Hm & Hd) (Hy' & Hm' & Hd').
  unfold String.le, String.leb, iso_date, not_after.
  rewrite <- (append_empty_r (decimal 2 d)), <- (append_empty_r (decimal 2 d')).
  rewrite (compare_decimal 4) by assumption.
  rewrite compare_dash, (compare_decimal 2) by assumption.
  rewrite compare_dash, (compare_decimal 2) by assumption.
  simpl.
  destruct (Nat.compare_spec y y'); [|simpl; split; [lia | done]
                                     |simpl; split; [done | lia]].
  destruct (Nat.compare_spec m m'); [|simpl; split; [lia | done]
                                     |simpl; split; [done | lia]].
  destruct (Nat.compare_spec d d'); simpl; split; try done; lia.
Qed.

(** X8. When every due date of the store is a date written as YYYY-MM-DD
    (four, two and two digits), [sort_tasks] by [due_date] yields the tasks
    in calendar order: a task that comes earlier in the result has a date
    that is not after the date of a task that comes later. *)
Theorem sort_tasks_due_date_chronological (w : World) (self : TaskManager)
    (date_of : Task → date) :
  (∀ t, t ∈ tasks_of w self →
        fits_iso (date_of t) ∧ due_date t = iso_date (date_of t)) →
  let out :=
    heap (sort_tasks self a_due_date w).2 (sort_tasks self a_due_date w).1 in
  ∀ i j a b, out !! i = Some a → out !! j = Some b → i < j →
             not_after (date_of a) (date_of b).
Proof.
  intros Hiso out i j a b Hi Hj Hij.
  destruct (sort_tasks_effect self a_due_date w) as (_ & Hout & _).
  fold out in Hout. simpl in Hout. fold (tasks_of w self) in Hout.
  assert (Hmem : ∀ t, t ∈ out → t ∈ tasks_of w self).
  { intros t Ht. rewrite Hout in Ht.
    by rewrite (sorted_Permutation due_date (tasks_of w self)) in Ht. }
  destruct (Hiso a) as [Hfa Hda];
    [eapply Hmem, list_elem_of_lookup_2; exact Hi|].
  destruct (Hiso b) as [Hfb Hdb];
    [eapply Hmem, list_elem_of_lookup_2; exact Hj|].
  apply iso_date_le; [exact Hfa | exact Hfb|].
  rewrite <- Hda, <- Hdb.
  apply (StronglySorted_lookup_le due_date out i j a b); try assumption.
  rewrite Hout. apply sorted_StronglySorted.
Qed.

Lemma sort_tasks_due_date_chronological_witness :
  (∀ t, t ∈ [pay_rent; buy_milk] →
        fits_iso (if String.eqb (id t) "1" then (2024, 1, 1) else (2024, 1, 5))
        ∧ due_date t
          = iso_date (if String.eqb (id t) "1" then (2024, 1, 1)
                      else (2024, 1, 5)))
  ∧ not_after (2024, 1, 1) (2024, 1, 5).
Proof.
  assert (Hiso : ∀ t, t ∈ tasks_of (world_with [pay_rent; buy_milk]) store0 →
            fits_iso (if String.eqb (id t) "1" then (2024, 1, 1)
                      else (2024, 1, 5))
            ∧ due_date t
              = iso_date (if String.eqb (id t) "1" then (2024, 1, 1)
                          else (2024, 1, 5))).
  { intros t Ht. simpl in Ht.
    repeat (apply elem_of_cons in Ht as [->|Ht];
            [simpl; split; [lia | reflexivity]|]).
    by apply elem_of_nil in Ht. }
  split; [exact Hiso|].
  exact (sort_tasks_due_date_chronological (world_with [pay_rent; buy_milk])
           store0
           (fun t => if String.eqb (id t) "1" then (2024, 1, 1)
                     else (2024, 1, 5))
           Hiso 0 1 buy_milk pay_rent eq_refl eq_refl (le_n 1)).
Defined.

(** * The front end *)

(** ** [load_table] *)

Lemma insert_rows (ts : list Task) (g : GUI.TaskGUI) :
  foldl (fun g task => GUI.set_tree (GUI.tree g ++ [GUI.row_of task]) g) g ts
  = GUI.set_tree (GUI.tree g ++ map GUI.row_of ts) g.
Proof.
  revert g. induction ts as [|t ts IH]; intros g; simpl.
  - rewrite app_nil_r. by destruct g.
  - rewrite IH. unfold GUI.set_tree. simpl. by rewrite <- app_assoc.
Qed.

(** What [load_table] leaves: the rows of the given list when it is a list
    that is not empty, the rows of the store's list otherwise; nothing else
    of the window changes, and nothing of the world. *)
Lemma load_table_effect (g : GUI.TaskGUI) (given : option loc) (w : World) :
  let shown :=
    match given with
    | Some l =>
        match heap w l with
        | [] => tasks_of w (GUI.manager g)
        | _ :: _ => heap w l
        end
    | None => tasks_of w (GUI.manager g)
    end in
  GUI.load_table g given w = (GUI.set_tree (map GUI.row_of shown) g, w).
Proof.
  unfold GUI.load_table, mbind, M_bind, mret, M_ret, list_read, tasks_of.
  destruct given as [l|]; simpl.
  - destruct (heap w l) as [|t ts] eqn:Hl; simpl.
    + by rewrite insert_rows.
    + rewrite Hl. by rewrite (insert_rows (t :: ts)).
  - by rewrite insert_rows.
Qed.

(** ** [apply_filters] *)

(** What [filter_tasks] returns and what it leaves alone. *)
Lemma filter_tasks_effect (self : TaskManager) (n p d : string) (w : World) :
  let r := (filter_tasks self n p d w).1 in
  let w' := (filter_tasks self n p d w).2 in
  heap w' r = List.filter (matches n p d) (heap w (tasks self))
  ∧ files w' = files w ∧ log w' = log w
  ∧ (∀ l', l' < next_loc w → heap w' l' = heap w l').
Proof.
  rewrite filter_tasks_in_order.
  destruct (narrow_in_order_effect n p d [by_name; by_priority; by_due_date]
              (tasks self) w) as (H & Hfiles & Hlog & _ & Hheap).
  split_and!; try assumption.
  rewrite H. apply filter_ext. intros t. unfold matches. simpl.
  by rewrite andb_true_r, andb_assoc.
Qed.

(** X9. [apply_filters] with an empty due-date filter, or one that
    [strptime] accepts, fills the table with the rows of the tasks that
    pass the three filters, in the store's order; when no task passes, the
    table is filled with the rows of all the store's tasks.  With a
    due-date filter that [strptime] rejects, the table stays as it is and
    an error is shown.  In every case the store's sequence, the files and
    the log of writes are as before. *)
Theorem apply_filters_table (date_ok : string → bool) (g : GUI.TaskGUI)
    (w : World) :
  tasks (GUI.manager g) < next_loc w →
  let g' := (GUI.apply_filters date_ok g w).1 in
  let w' := (GUI.apply_filters date_ok g w).2 in
  let ts := tasks_of w (GUI.manager g) in
  let found :=
    List.filter
      (matches (GUI.search_entry g) (GUI.priority_cb g) (GUI.due_entry g))
      ts in
  (GUI.due_entry g = "" ∨ date_ok (GUI.due_entry g) = true →
     (found ≠ [] → GUI.tree g' = map GUI.row_of found)
     ∧ (found = [] → GUI.tree g' = map GUI.row_of ts)
     ∧ GUI.dialogs g' = GUI.dialogs g)
  ∧ (GUI.due_entry g ≠ "" → date_ok (GUI.due_entry g) = false →
       GUI.tree g' = GUI.tree g
       ∧ GUI.dialogs g'
         = GUI.ShowError "Filter Error"
             "Due date filter must be in YYYY-MM-DD format."
           :: GUI.dialogs g
       ∧ w' = w)
  ∧ GUI.manager g' = GUI.manager g
  ∧ tasks_of w' (GUI.manager g) = ts
  ∧ files w' = files w ∧ log w' = log w.
Proof.
  intros Hvalid g' w' ts found.
  destruct (filter_tasks_effect (GUI.manager g) (GUI.search_entry g)
              (GUI.priority_cb g) (GUI.due_entry g) w)
    as (Hfound & Hfiles & Hlog & Hheap).
  fold (tasks_of w (GUI.manager g)) in Hfound. fold ts found in Hfound.
  assert (Hstore := Hheap _ Hvalid).
  unfold GUI.apply_filters, mbind, M_bind in g', w'.
  destruct (PyStr.truthy (GUI.due_entry g) && negb (date_ok (GUI.due_entry g)))
    eqn:Hbad.
  - (* the date filter is rejected *)
    apply andb_true_iff in Hbad as [Hne Hno].
    apply truthy_nonempty in Hne. apply negb_true_iff in Hno.
    subst g' w'. simpl. split_and!; try reflexivity.
    + intros [Hempty|Hok]; congruence.
    + intros _ _. by split_and!.
  - (* the filters are applied *)
    destruct (filter_tasks (GUI.manager g) (GUI.search_entry g)
                (GUI.priority_cb g) (GUI.due_entry g) w) as [r w1].
    simpl in Hfound, Hfiles, Hlog, Hstore.
    subst g' w'. rewrite load_table_effect. simpl.
    unfold tasks_of at 1 2 3. rewrite Hfound, Hstore. fold ts.
    split_and!; try done.
    + intros _. split_and!; try reflexivity.
      * intros Hsome. by destruct found.
      * by intros ->.
    + intros Hne Hno. apply andb_false_iff in Hbad as [Hbad|Hbad].
      * apply truthy_nonempty in Hne. congruence.
      * rewrite Hno in Hbad. discriminate.
Qed.

Lemma apply_filters_table_witness :
  tasks store0 < next_loc (world_with [buy_milk; pay_rent])
  ∧ GUI.tree
      (GUI.apply_filters sample_date_ok
         (GUI.mkTaskGUI store0 "Task Name" "Description" "Medium"
            "YYYY-MM-DD" [] "dentist" "All" "" [])
         (world_with [buy_milk; pay_rent])).1
    = map GUI.row_of [buy_milk; pay_rent].
Proof.
  assert (Hvalid : tasks store0 < next_loc (world_with [buy_milk; pay_rent]))
    by (simpl; lia).
  split; [exact Hvalid|].
  destruct (apply_filters_table sample_date_ok
              (GUI.mkTaskGUI store0 "Task Name" "Description" "Medium"
                 "YYYY-MM-DD" [] "dentist" "All" "" [])
              (world_with [buy_milk; pay_rent]) Hvalid)
    as (Hshown & _).
  destruct Hshown as (_ & Hnone & _); [by left|].
  by apply Hnone.
Defined.

(** ** The front end's [add_task] *)

(** X10. The front end's [add_task] refuses a form whose name is empty or
    the placeholder, whose due date is empty or the placeholder, whose
    priority is empty, or whose due date [strptime] rejects: it shows one
    error and changes nothing else; the store, the files, the table and the
    texts of the form are as before, and no identifier is drawn. *)
Theorem gui_add_task_rejects (date_ok : string → bool) (g : GUI.TaskGUI)
    (w : World) :
  GUI.name_entry g = "" ∨ GUI.name_entry g = "Task Name"
  ∨ GUI.date_entry g = "" ∨ GUI.date_entry g = "YYYY-MM-DD"
  ∨ GUI.prio_cb_add g = "" ∨ date_ok (GUI.date_entry g) = false →
  ∃ title message,
    GUI.add_task date_ok g w = (GUI.showerror title message g, w)
    ∧ (title, message) ∈
        [("Missing Info", "Task name and due date are required.");
         ("Missing Info", "Priority is required.");
         ("Date Error", "Enter date in %Y-%m-%d format.")].
Proof.
  intros Hbad. unfold GUI.add_task.
  destruct (negb (PyStr.truthy (GUI.name_entry g))
            || String.eqb (GUI.name_entry g) "Task Name"
            || negb (PyStr.truthy (GUI.date_entry g))
            || String.eqb (GUI.date_entry g) "YYYY-MM-DD") eqn:Hmissing.
  { do 2 eexists. split; [reflexivity | repeat constructor]. }
  destruct (negb (PyStr.truthy (GUI.prio_cb_add g))) eqn:Hprio.
  { do 2 eexists. split; [reflexivity | repeat constructor]. }
  destruct (negb (date_ok (GUI.date_entry g))) eqn:Hdate.
  { do 2 eexists. split; [reflexivity | repeat constructor]. }
  exfalso.
  rewrite !orb_false_iff, !negb_false_iff, !String.eqb_neq in Hmissing.
  destruct Hmissing as [[[Hn Hn'] Hd] Hd'].
  apply negb_false_iff in Hprio, Hdate.
  apply truthy_nonempty in Hn, Hd, Hprio.
  destruct Hbad as [?|[?|[?|[?|[?|?]]]]]; congruence.
Qed.

Lemma gui_add_task_rejects_witness :
  ∃ title message,
    GUI.add_task sample_date_ok
      (GUI.set_date_entry "2024-13-45" (GUI.set_name_entry "Walk dog" window0))
      (world_with [buy_milk])
    = (GUI.showerror title message
         (GUI.set_date_entry "2024-13-45"
            (GUI.set_name_entry "Walk dog" window0)),
       world_with [buy_milk])
    ∧ (title, message) ∈
        [("Missing Info", "Task name and due date are required.");
         ("Missing Info", "Priority is required.");
         ("Date Error", "Enter date in %Y-%m-%d format.")].
Proof.
  apply (gui_add_task_rejects sample_date_ok
           (GUI.set_date_entry "2024-13-45"
              (GUI.set_name_entry "Walk dog" window0))
           (world_with [buy_milk])).
  do 5 right. reflexivity.
Defined.

Lemma clear_add_fields_effect (g : GUI.TaskGUI) :
  GUI.clear_add_fields g
  = GUI.mkTaskGUI (GUI.manager g) "Task Name" "Description" "Medium"
      "YYYY-MM-DD" (GUI.tree g) (GUI.search_entry g) (GUI.priority_cb g)
      (GUI.due_entry g) (GUI.dialogs g).
Proof. reflexivity. Qed.

(** X11. The front end's [add_task] on a form that passes the checks adds
    one task at the end of the store: its name, description, priority and
    due date are the texts of the form, letter for letter, and its [id] is
    a newly generated one.  The backing file is written, the table shows
    the rows of all the store's tasks, whatever filter is in the filter
    widgets, no error is shown, and the form is back to its placeholders
    with the priority on "Medium". *)
Theorem gui_add_task_accepts (date_ok : string → bool) (g : GUI.TaskGUI)
    (w : World) :
  GUI.name_entry g ≠ "" → GUI.name_entry g ≠ "Task Name" →
  GUI.date_entry g ≠ "" → GUI.date_entry g ≠ "YYYY-MM-DD" →
  GUI.prio_cb_add g ≠ "" → date_ok (GUI.date_entry g) = true →
  let g' := (GUI.add_task date_ok g w).1 in
  let w' := (GUI.add_task date_ok g w).2 in
  let t := mkTask (UUID.uuid4_str (urandom w (drawn w))) (GUI.name_entry g)
             (GUI.desc_entry g) (GUI.prio_cb_add g) (GUI.date_entry g) in
  let ts := tasks_of w (GUI.manager g) ++ [t] in
  tasks_of w' (GUI.manager g) = ts
  ∧ files w' !! filename (GUI.manager g) = Some (Document (map to_dict ts))
  ∧ log w'
    = Wrote (filename (GUI.manager g)) (Document (map to_dict ts)) :: log w
  ∧ g' = GUI.mkTaskGUI (GUI.manager g) "Task Name" "Description" "Medium"
           "YYYY-MM-DD" (map GUI.row_of ts) (GUI.search_entry g)
           (GUI.priority_cb g) (GUI.due_entry g) (GUI.dialogs g).
Proof.
  intros Hn Hn' Hd Hd' Hp Hok g' w' t ts.
  apply truthy_nonempty in Hn, Hd, Hp.
  apply String.eqb_neq in Hn', Hd'.
  set (w1 := (add_task (GUI.manager g) t (uuid4 w).2).2).
  assert (Hts : tasks_of w1 (GUI.manager g) = ts).
  { subst w1. run. by rewrite decide_True. }
  assert (Hadd : add_task (GUI.manager g) t (uuid4 w).2 = (tt, w1)).
  { subst w1. by destruct (add_task (GUI.manager g) t (uuid4 w).2) as [[] ?]. }
  assert (Hrun : GUI.add_task date_ok g w
                 = (GUI.clear_add_fields
                      (GUI.set_tree (map GUI.row_of ts) g), w1)).
  { unfold GUI.add_task. rewrite Hn, Hn', Hd, Hd', Hp, Hok. simpl.
    unfold mbind, M_bind.
    change (Task_init (GUI.name_entry g) (GUI.desc_entry g)
              (GUI.prio_cb_add g) (GUI.date_entry g) None w)
      with (t, (uuid4 w).2).
    cbv beta iota. rewrite Hadd. cbv beta iota.
    rewrite load_table_effect. cbv beta iota zeta. by rewrite Hts. }
  subst g' w'. rewrite Hrun, clear_add_fields_effect. simpl.
  split_and!; try done.
  - subst w1. run. rewrite decide_True by done. apply lookup_insert_eq.
  - subst w1. run. by rewrite decide_True.
Qed.

Lemma gui_add_task_accepts_witness :
  tasks_of
    (GUI.add_task sample_date_ok
       (GUI.set_date_entry "2024-01-05" (GUI.set_name_entry "Walk dog" window0))
       (world_with [buy_milk])).2 store0
  = [buy_milk;
     mkTask "00000000-0000-4000-8000-000000000000" "Walk dog" "Description"
       "Medium" "2024-01-05"].
Proof.
  exact (proj1 (gui_add_task_accepts sample_date_ok
                  (GUI.set_date_entry "2024-01-05"
                     (GUI.set_name_entry "Walk dog" window0))
                  (world_with [buy_milk])
                  ltac:(discriminate) ltac:(discriminate) ltac:(discriminate)
                  ltac:(discriminate) ltac:(discriminate) eq_refl)).
Defined.

(** ** [sort_by_column] *)

(** X12. For each column heading that calls [sort_by_column] (Name,
    Description, Priority, Due Date), the key computed from the heading is
    the name of a data attribute, and the table is filled with the rows of
    all the store's tasks in the order of [sort_tasks] by that attribute;
    the store's sequence, the files and the log of writes are as before. *)
Theorem sort_by_column_heading (g : GUI.TaskGUI) (column : string)
    (w : World) :
  tasks (GUI.manager g) < next_loc w →
  column ∈ ["Name"; "Description"; "Priority"; "Due Date"] →
  ∃ key g',
    attr_name key = GUI.replace_char " " "_" (PyStr.lower column)
    ∧ (GUI.sort_by_column g column w).1 = Some g'
    ∧ GUI.tree g'
      = map GUI.row_of
          (sorted (fun t => getattr t key) (tasks_of w (GUI.manager g)))
    ∧ GUI.manager g' = GUI.manager g
    ∧ GUI.dialogs g' = GUI.dialogs g
    ∧ tasks_of (GUI.sort_by_column g column w).2 (GUI.manager g)
      = tasks_of w (GUI.manager g)
    ∧ files (GUI.sort_by_column g column w).2 = files w
    ∧ log (GUI.sort_by_column g column w).2 = log w.
Proof.
  intros Hvalid Hcol.
  assert (Hkey : ∃ key,
            attr_name key = GUI.replace_char " " "_" (PyStr.lower column)
            ∧ GUI.attr_of_name
                (GUI.replace_char " " "_" (PyStr.lower column)) = Some key).
  { repeat (apply elem_of_cons in Hcol as [->|Hcol];
            [eexists; split; [|reflexivity]; reflexivity|]).
    by apply elem_of_nil in Hcol. }
  destruct Hkey as (key & Hname & Hfind). exists key.
  unfold GUI.sort_by_column. rewrite Hfind. unfold mbind, M_bind.
  destruct (sort_tasks_effect (GUI.manager g) key w)
    as (Hr & Hout & Hfiles & Hlog & Hheap).
  assert (Hstore := Hheap _ Hvalid).
  destruct (sort_tasks (GUI.manager g) key w) as [r w1].
  simpl in Hr, Hout, Hfiles, Hlog, Hstore.
  rewrite load_table_effect. simpl.
  eexists. split_and!; try reflexivity; try assumption.
  simpl. unfold tasks_of. rewrite Hout, Hstore.
  destruct (heap w (tasks (GUI.manager g))) as [|t ts] eqn:Hts.
  - reflexivity.
  - destruct (sorted (fun t0 => getattr t0 key) (t :: ts)) eqn:Hsorted;
      [|reflexivity].
    pose proof (sorted_Permutation (fun t0 => getattr t0 key) (t :: ts)) as Hp.
    rewrite Hsorted in Hp. by apply Permutation_nil_l in Hp.
Qed.

Lemma sort_by_column_heading_witness :
  tasks (GUI.manager window0) < next_loc (world_with [pay_rent; buy_milk])
  ∧ "Due Date" ∈ ["Name"; "Description"; "Priority"; "Due Date"]
  ∧ ∃ key g',
      attr_name key = GUI.replace_char " " "_" (PyStr.lower "Due Date")
      ∧ (GUI.sort_by_column window0 "Due Date"
           (world_with [pay_rent; buy_milk])).1 = Some g'
      ∧ GUI.tree g'
        = map GUI.row_of
            (sorted (fun t => getattr t key)
               (tasks_of (world_with [pay_rent; buy_milk])
                  (GUI.manager window0)))
      ∧ GUI.manager g' = GUI.manager window0
      ∧ GUI.dialogs g' = GUI.dialogs window0
      ∧ tasks_of (GUI.sort_by_column window0 "Due Date"
                    (world_with [pay_rent; buy_milk])).2 (GUI.manager window0)
        = tasks_of (world_with [pay_rent; buy_milk]) (GUI.manager window0)
      ∧ files (GUI.sort_by_column window0 "Due Date"
                 (world_with [pay_rent; buy_milk])).2
        = files (world_with [pay_rent; buy_milk])
      ∧ log (GUI.sort_by_column window0 "Due Date"
               (world_with [pay_rent; buy_milk])).2
        = log (world_with [pay_rent; buy_milk]).
Proof.
  assert (Hvalid : tasks (GUI.manager window0)
                   < next_loc (world_with [pay_rent; buy_milk]))
    by (simpl; lia).
  assert (Hcol : "Due Date" ∈ ["Name"; "Description"; "Priority"; "Due Date"])
    by repeat constructor.
  split_and!; [exact Hvalid | exact Hcol |].
  exact (sort_by_column_heading window0 "Due Date"
           (world_with [pay_rent; buy_milk]) Hvalid Hcol).
Defined.

(** ** The placeholders of the form *)

(** X13. [clear_add_fields] leaves the form as the constructor made it,
    whatever it held: the three placeholders and the priority "Medium".
    For each of the three entries, gaining and then losing the focus
    without typing leaves a text other than the empty one as it was and
    turns the empty text into the placeholder; so after losing the focus
    an entry is never empty. *)
Theorem form_placeholders (g : GUI.TaskGUI) :
  GUI.clear_add_fields g
  = GUI.mkTaskGUI (GUI.manager g) "Task Name" "Description" "Medium"
      "YYYY-MM-DD" (GUI.tree g) (GUI.search_entry g) (GUI.priority_cb g)
      (GUI.due_entry g) (GUI.dialogs g)
  ∧ GUI.name_entry (GUI.reset_name_placeholder (GUI.clear_name_placeholder g))
    = (if String.eqb (GUI.name_entry g) "" then "Task Name"
       else GUI.name_entry g)
  ∧ GUI.desc_entry (GUI.reset_desc_placeholder (GUI.clear_desc_placeholder g))
    = (if String.eqb (GUI.desc_entry g) "" then "Description"
       else GUI.desc_entry g)
  ∧ GUI.date_entry (GUI.reset_date_placeholder (GUI.clear_date_placeholder g))
    = (if String.eqb (GUI.date_entry g) "" then "YYYY-MM-DD"
       else GUI.date_entry g)
  ∧ GUI.name_entry (GUI.reset_name_placeholder g) ≠ ""
  ∧ GUI.desc_entry (GUI.reset_desc_placeholder g) ≠ ""
  ∧ GUI.date_entry (GUI.reset_date_placeholder g) ≠ "".
Proof.
  split_and!.
  - reflexivity.
  - unfold GUI.reset_name_placeholder, GUI.clear_name_placeholder.
    destruct (String.eqb_spec (GUI.name_entry g) "Task Name") as [->|Hne];
      simpl; [reflexivity|].
    by destruct (String.eqb_spec (GUI.name_entry g) "") as [->|?].
  - unfold GUI.reset_desc_placeholder, GUI.clear_desc_placeholder.
    destruct (String.eqb_spec (GUI.desc_entry g) "Description") as [->|Hne];
      simpl; [reflexivity|].
    by destruct (String.eqb_spec (GUI.desc_entry g) "") as [->|?].
  - unfold GUI.reset_date_placeholder, GUI.clear_date_placeholder.
    destruct (String.eqb_spec (GUI.date_entry g) "YYYY-MM-DD") as [->|Hne];
      simpl; [reflexivity|].
    by destruct (String.eqb_spec (GUI.date_entry g) "") as [->|?].
  - unfold GUI.reset_name_placeholder.
    by destruct (String.eqb_spec (GUI.name_entry g) "") as [->|?].
  - unfold GUI.reset_desc_placeholder.
    by destruct (String.eqb_spec (GUI.desc_entry g) "") as [->|?].
  - unfold GUI.reset_date_placeholder.
    by destruct (String.eqb_spec (GUI.date_entry g) "") as [->|?].
Qed.

(** ** The constructor of the window *)


(** ** The front end's [edit_task] *)

Lemma Task_init_explicit (n d p du i : string) (w : World) :
  PyStr.truthy i = true →
  Task_init n d p du (Some i) w = (mkTask i n d p du, w).
Proof.
  intros Hi. unfold Task_init, mbind, M_bind, mret, M_ret. by rewrite Hi.
Qed.

(** The checks that [add_task] and [edit_task] make on the form. *)
Lemma form_checks_pass (date_ok : string → bool) (n du p : string) :
  n ≠ "" → n ≠ "Task Name" → du ≠ "" → du ≠ "YYYY-MM-DD" → p ≠ "" →
  date_ok du = true →
  negb (PyStr.truthy n) || String.eqb n "Task Name"
  || negb (PyStr.truthy du) || String.eqb du "YYYY-MM-DD" = false
  ∧ negb (PyStr.truthy p) = false
  ∧ negb (date_ok du) = false.
Proof.
  intros Hn Hn' Hd Hd' Hp Hok.
  apply truthy_nonempty in Hn, Hd, Hp. apply String.eqb_neq in Hn', Hd'.
  by rewrite Hn, Hn', Hd, Hd', Hp, Hok.
Qed.

(** The run of [edit_task] when a row is selected, the form passes the
    checks and the store has a task with the selected [id]. *)
Lemma edit_task_run (date_ok : string → bool) (g : GUI.TaskGUI) (w : World)
    (i : string) (k : nat) (a : Task) :
  i ≠ "" →
  GUI.name_entry g ≠ "" → GUI.name_entry g ≠ "Task Name" →
  GUI.date_entry g ≠ "" → GUI.date_entry g ≠ "YYYY-MM-DD" →
  GUI.prio_cb_add g ≠ "" → date_ok (GUI.date_entry g) = true →
  tasks_of w (GUI.manager g) !! k = Some a → id a = i →
  (∀ j c, j < k → tasks_of w (GUI.manager g) !! j = Some c → id c ≠ i) →
  let t := mkTask i (GUI.name_entry g) (GUI.desc_entry g) (GUI.prio_cb_add g)
             (GUI.date_entry g) in
  let w1 := (save_tasks (GUI.manager g)
               (list_setitem (tasks (GUI.manager g)) k t w).2).2 in
  GUI.edit_task date_ok (Some i) g w
  = (GUI.clear_add_fields
       (GUI.set_tree
          (map GUI.row_of (<[k := t]> (tasks_of w (GUI.manager g)))) g),
     w1)
  ∧ tasks_of w1 (GUI.manager g) = <[k := t]> (tasks_of w (GUI.manager g)).
Proof.
  intros Hi Hn Hn' Hd Hd' Hp Hok Hk Ha Hfirst t w1.
  destruct (form_checks_pass date_ok _ _ _ Hn Hn' Hd Hd' Hp Hok)
    as (Hc1 & Hc2 & Hc3).
  apply truthy_nonempty in Hi.
  assert (Hts : tasks_of w1 (GUI.manager g)
                = <[k := t]> (tasks_of w (GUI.manager g))).
  { subst w1. run. by rewrite decide_True. }
  split; [|exact Hts].
  unfold GUI.edit_task, falsy. rewrite Hi. cbn [negb]. cbv beta iota zeta.
  rewrite Hc1, Hc2, Hc3. cbv beta iota.
  unfold mbind at 1, M_bind. rewrite Task_init_explicit by exact Hi.
  cbv beta iota. unfold mbind at 1, M_bind. fold t.
  assert (Hupd : update_task (GUI.manager g) i t w = (true, w1)).
  { unfold update_task, mbind, M_bind, list_read. cbv beta iota.
    fold (tasks_of w (GUI.manager g)).
    by rewrite (update_loop_first (GUI.manager g) i t w _ 0 k a Hk Ha Hfirst). }
  simpl default. rewrite Hupd. cbv beta iota.
  unfold mbind, M_bind. rewrite load_table_effect. cbv beta iota zeta.
  by rewrite Hts.
Qed.

(** X15. The front end's [edit_task], with a row selected, a form that
    passes the checks and a stored task with the selected [id], puts in
    the place of the first such task a task with the texts of the form and
    with the selected [id]: the identifiers of the store, position by
    position, are as before.  The file is written, the table shows the
    rows of all the store's tasks and the form is back to its
    placeholders. *)
Theorem gui_edit_task_replaces (date_ok : string → bool) (g : GUI.TaskGUI)
    (w : World) (i : string) (k : nat) (a : Task) :
  i ≠ "" →
  GUI.name_entry g ≠ "" → GUI.name_entry g ≠ "Task Name" →
  GUI.date_entry g ≠ "" → GUI.date_entry g ≠ "YYYY-MM-DD" →
  GUI.prio_cb_add g ≠ "" → date_ok (GUI.date_entry g) = true →
  tasks_of w (GUI.manager g) !! k = Some a → id a = i →
  (∀ j c, j < k → tasks_of w (GUI.manager g) !! j = Some c → id c ≠ i) →
  let g' := (GUI.edit_task date_ok (Some i) g w).1 in
  let w' := (GUI.edit_task date_ok (Some i) g w).2 in
  let t := mkTask i (GUI.name_entry g) (GUI.desc_entry g) (GUI.prio_cb_add g)
             (GUI.date_entry g) in
  let ts := <[k := t]> (tasks_of w (GUI.manager g)) in
  tasks_of w' (GUI.manager g) = ts
  ∧ map id ts = map id (tasks_of w (GUI.manager g))
  ∧ files w' !! filename (GUI.manager g) = Some (Document (map to_dict ts))
  ∧ g' = GUI.mkTaskGUI (GUI.manager g) "Task Name" "Description" "Medium"
           "YYYY-MM-DD" (map GUI.row_of ts) (GUI.search_entry g)
           (GUI.priority_cb g) (GUI.due_entry g) (GUI.dialogs g).
Proof.
  intros Hi Hn Hn' Hd Hd' Hp Hok Hk Ha Hfirst g' w' t ts.
  destruct (edit_task_run date_ok g w i k a Hi Hn Hn' Hd Hd' Hp Hok Hk Ha
              Hfirst) as [Hrun Hts].
  fold t in Hrun, Hts. fold ts in Hrun, Hts.
  subst g' w'. rewrite Hrun, clear_add_fields_effect. simpl.
  split_and!; try done.
  - subst ts. rewrite map_insert. apply list_insert_id.
    rewrite (map_lookup id _ k a Hk). simpl. congruence.
  - run. rewrite decide_True by done. apply lookup_insert_eq.
Qed.

Lemma gui_edit_task_replaces_witness :
  tasks_of
    (GUI.edit_task sample_date_ok (Some "2")
       (GUI.set_date_entry "2024-01-05"
          (GUI.set_name_entry "Pay the rent" window0))
       (world_with [buy_milk; pay_rent])).2 store0
  = [buy_milk;
     mkTask "2" "Pay the rent" "Description" "Medium" "2024-01-05"].
Proof.
  assert (Hfirst : ∀ j c, j < 1 →
            tasks_of (world_with [buy_milk; pay_rent]) store0 !! j = Some c →
            id c ≠ "2").
  { intros [|j] c Hj Hc; [|lia]. by injection Hc as <-. }
  exact (proj1 (gui_edit_task_replaces sample_date_ok
                  (GUI.set_date_entry "2024-01-05"
                     (GUI.set_name_entry "Pay the rent" window0))
                  (world_with [buy_milk; pay_rent]) "2" 1 pay_rent
                  ltac:(discriminate) ltac:(discriminate) ltac:(discriminate)
                  ltac:(discriminate) ltac:(discriminate) ltac:(discriminate)
                  eq_refl eq_refl eq_refl Hfirst)).
Defined.

(** X16. The front end's [edit_task] shows one error and changes nothing
    else (neither the store, nor the files, nor the table, nor the texts of
    the form) when no row is selected, when the form fails a check, and
    when no stored task has the selected [id]. *)
Theorem gui_edit_task_rejects (date_ok : string → bool)
    (selected_id : option string) (g : GUI.TaskGUI) (w : World) :
  falsy selected_id = true
  ∨ GUI.name_entry g = "" ∨ GUI.name_entry g = "Task Name"
  ∨ GUI.date_entry g = "" ∨ GUI.date_entry g = "YYYY-MM-DD"
  ∨ GUI.prio_cb_add g = "" ∨ date_ok (GUI.date_entry g) = false
  ∨ (∀ a, a ∈ tasks_of w (GUI.manager g) → Some (id a) ≠ selected_id) →
  ∃ title message,
    GUI.edit_task date_ok selected_id g w
    = (GUI.showerror title message g, w).
Proof.
  intros Hbad. unfold GUI.edit_task.
  destruct (falsy selected_id) eqn:Hsel; [by do 2 eexists|].
  cbv beta iota zeta.
  destruct (negb (PyStr.truthy (GUI.name_entry g))
            || String.eqb (GUI.name_entry g) "Task Name"
            || negb (PyStr.truthy (GUI.date_entry g))
            || String.eqb (GUI.date_entry g) "YYYY-MM-DD") eqn:Hmissing;
    [by do 2 eexists|].
  destruct (negb (PyStr.truthy (GUI.prio_cb_add g))) eqn:Hprio;
    [by do 2 eexists|].
  destruct (negb (date_ok (GUI.date_entry g))) eqn:Hdate; [by do 2 eexists|].
  rewrite !orb_false_iff, !negb_false_iff, !String.eqb_neq in Hmissing.
  destruct Hmissing as [[[Hn Hn'] Hd] Hd'].
  apply negb_false_iff in Hprio, Hdate.
  apply truthy_nonempty in Hn, Hd, Hprio.
  destruct Hbad as [?|[?|[?|[?|[?|[?|[?|Hno]]]]]]]; try congruence.
  destruct selected_id as [i|]; [|discriminate]. simpl in Hsel.
  apply negb_false_iff in Hsel.
  unfold mbind at 1, M_bind. rewrite Task_init_explicit by exact Hsel.
  cbv beta iota. unfold mbind at 1, M_bind.
  assert (Hupd : ∀ t, update_task (GUI.manager g) i t w = (false, w)).
  { intros t. unfold update_task, mbind, M_bind, list_read. cbv beta iota.
    apply update_loop_absent. intros a Ha Hid. apply (Hno a Ha). by rewrite Hid. }
  simpl default. rewrite Hupd. by do 2 eexists.
Qed.

Lemma gui_edit_task_rejects_witness :
  ∃ title message,
    GUI.edit_task sample_date_ok (Some "7")
      (GUI.set_date_entry "2024-01-05" (GUI.set_name_entry "Walk dog" window0))
      (world_with [buy_milk])
    = (GUI.showerror title message
         (GUI.set_date_entry "2024-01-05"
            (GUI.set_name_entry "Walk dog" window0)),
       world_with [buy_milk]).
Proof.
  apply (gui_edit_task_rejects sample_date_ok (Some "7")
           (GUI.set_date_entry "2024-01-05"
              (GUI.set_name_entry "Walk dog" window0))
           (world_with [buy_milk])).
  do 7 right. intros a Ha. simpl in Ha.
  apply elem_of_cons in Ha as [->|Ha]; [discriminate|].
  by apply elem_of_nil in Ha.
Defined.

(** ** The front end's [delete_task] *)

(** X17. The front end's [delete_task] deletes only after the user has
    confirmed.  With no row selected it shows an error and changes nothing
    else; with a row selected and the answer "no" it changes nothing at
    all.  With a row selected and the answer "yes" the store keeps exactly
    the tasks with another [id], the file is written, the table shows the
    rows of the tasks that are left and the form is back to its
    placeholders. *)
Theorem gui_delete_task_confirmed (g : GUI.TaskGUI) (w : World) :
  (∀ confirm selected_id, falsy selected_id = true →
     GUI.delete_task confirm selected_id g w
     = (GUI.showerror "Select Task" "Please select a task to delete." g, w))
  ∧ (∀ selected_id, falsy selected_id = false →
       GUI.delete_task false selected_id g w = (g, w))
  ∧ (∀ i, i ≠ "" →
       let g' := (GUI.delete_task true (Some i) g w).1 in
       let w' := (GUI.delete_task true (Some i) g w).2 in
       let ts :=
         List.filter (fun t => negb (String.eqb (id t) i))
           (tasks_of w (GUI.manager g)) in
       tasks_of w' (GUI.manager g') = ts
       ∧ filename (GUI.manager g') = filename (GUI.manager g)
       ∧ files w' !! filename (GUI.manager g)
         = Some (Document (map to_dict ts))
       ∧ GUI.tree g' = map GUI.row_of ts
       ∧ GUI.name_entry g' = "Task Name" ∧ GUI.desc_entry g' = "Description"
       ∧ GUI.date_entry g' = "YYYY-MM-DD" ∧ GUI.prio_cb_add g' = "Medium"
       ∧ GUI.dialogs g' = GUI.dialogs g).
Proof.
  split_and!.
  - intros confirm selected_id Hsel. unfold GUI.delete_task. by rewrite Hsel.
  - intros selected_id Hsel. unfold GUI.delete_task. by rewrite Hsel.
  - intros i Hi g' w' ts. apply truthy_nonempty in Hi.
    set (m := (delete_task (GUI.manager g) i w).1).
    set (w1 := (delete_task (GUI.manager g) i w).2).
    assert (Hts : tasks_of w1 m = ts).
    { subst w1 m ts. run. by rewrite decide_True. }
    assert (Hrun : GUI.delete_task true (Some i) g w
                   = (GUI.clear_add_fields
                        (GUI.set_tree (map GUI.row_of ts)
                           (GUI.set_manager m g)), w1)).
    { unfold GUI.delete_task, falsy. rewrite Hi. cbn [negb].
      cbv beta iota. simpl default. unfold mbind at 1, M_bind.
      rewrite (surjective_pairing (delete_task (GUI.manager g) i w)).
      fold m w1. cbv beta iota zeta. unfold mbind, M_bind.
      rewrite load_table_effect. cbv beta iota zeta.
      replace (tasks_of w1 (GUI.manager (GUI.set_manager m g)))
        with ts by (by rewrite <- Hts).
      reflexivity. }
    subst g' w'. rewrite Hrun, clear_add_fields_effect. simpl.
    split_and!; try done.
    subst w1. run. rewrite decide_True by done. apply lookup_insert_eq.
Qed.

(** ** Selecting a row and editing *)

Lemma populate_loop_first (i : string) (rest : list Task) (k : nat) (a : Task)
    (g : GUI.TaskGUI) :
  rest !! k = Some a → id a = i →
  (∀ j c, j < k → rest !! j = Some c → id c ≠ i) →
  GUI.populate_loop i rest g
  = GUI.mkTaskGUI (GUI.manager g) (name a) (description a) (priority a)
      (due_date a) (GUI.tree g) (GUI.search_entry g) (GUI.priority_cb g)
      (GUI.due_entry g) (GUI.dialogs g).
Proof.
  revert k. induction rest as [|b rest IH]; intros k Hk Ha Hfirst.
  - discriminate.
  - simpl. destruct k as [|k].
    + injection Hk as ->. rewrite (proj2 (String.eqb_eq _ _) Ha).
      unfold GUI.set_date_entry, GUI.set_prio_cb_add, GUI.set_desc_entry,
        GUI.set_name_entry, GUI.Entry_insert_0, GUI.Entry_delete_all. simpl.
      by rewrite !append_empty_r.
    + destruct (String.eqb_spec (id b) i) as [Heq|_].
      * exfalso. apply (Hfirst 0 b); [lia | done | done].
      * apply (IH k Hk Ha). intros j c Hj Hc.
        apply (Hfirst (S j) c); [lia | done].
Qed.

(** X18. Selecting a row fills the form with the attributes of the first
    stored task that has the row's [id].  When these attributes pass the
    checks of the form, pressing Edit right after leaves the store's
    sequence equal to what it was. *)
Theorem select_then_edit (date_ok : string → bool) (g : GUI.TaskGUI)
    (w : World) (k : nat) (a : Task) :
  tasks_of w (GUI.manager g) !! k = Some a →
  (∀ j c, j < k → tasks_of w (GUI.manager g) !! j = Some c → id c ≠ id a) →
  id a ≠ "" →
  name a ≠ "" → name a ≠ "Task Name" →
  due_date a ≠ "" → due_date a ≠ "YYYY-MM-DD" →
  priority a ≠ "" → date_ok (due_date a) = true →
  let g1 := (GUI.populate_fields_from_selection (Some (id a)) g w).1 in
  let w1 := (GUI.populate_fields_from_selection (Some (id a)) g w).2 in
  w1 = w
  ∧ GUI.name_entry g1 = name a ∧ GUI.desc_entry g1 = description a
  ∧ GUI.prio_cb_add g1 = priority a ∧ GUI.date_entry g1 = due_date a
  ∧ tasks_of (GUI.edit_task date_ok (Some (id a)) g1 w1).2 (GUI.manager g)
    = tasks_of w (GUI.manager g).
Proof.
  intros Hk Hfirst Hi Hn Hn' Hd Hd' Hp Hok g1 w1.
  assert (Hpop : GUI.populate_fields_from_selection (Some (id a)) g w
                 = (GUI.mkTaskGUI (GUI.manager g) (name a) (description a)
                      (priority a) (due_date a) (GUI.tree g)
                      (GUI.search_entry g) (GUI.priority_cb g)
                      (GUI.due_entry g) (GUI.dialogs g), w)).
  { unfold GUI.populate_fields_from_selection, falsy.
    rewrite (proj2 (truthy_nonempty _) Hi). cbn [negb]. cbv beta iota.
    unfold mbind, M_bind, list_read, mret, M_ret. simpl default.
    fold (tasks_of w (GUI.manager g)).
    by rewrite (populate_loop_first (id a) _ k a g Hk eq_refl Hfirst). }
  subst g1 w1. rewrite Hpop. simpl.
  split_and!; try reflexivity.
  set (g1 := GUI.mkTaskGUI _ _ _ _ _ _ _ _ _ _).
  destruct (edit_task_run date_ok g1 w (id a) k a Hi Hn Hn' Hd Hd' Hp Hok Hk
              eq_refl Hfirst) as [Hrun Hts].
  rewrite Hrun. simpl in *. rewrite Hts.
  apply list_insert_id. rewrite Hk. by destruct a.
Qed.

Lemma select_then_edit_witness :
  tasks_of
    (GUI.edit_task sample_date_ok (Some "2")
       (GUI.populate_fields_from_selection (Some "2") window0
          (world_with [buy_milk; pay_rent])).1
       (GUI.populate_fields_from_selection (Some "2") window0
          (world_with [buy_milk; pay_rent])).2).2 store0
  = [buy_milk; pay_rent].
Proof.
  assert (Hfirst : ∀ j c, j < 1 →
            tasks_of (world_with [buy_milk; pay_rent]) (GUI.manager window0)
              !! j = Some c →
            id c ≠ id pay_rent).
  { intros [|j] c Hj Hc; [|lia]. by injection Hc as <-. }
  exact (proj2 (proj2 (proj2 (proj2 (proj2
           (select_then_edit sample_date_ok window0
              (world_with [buy_milk; pay_rent]) 1 pay_rent eq_refl Hfirst
              ltac:(discriminate) ltac:(discriminate) ltac:(discriminate)
              ltac:(discriminate) ltac:(discriminate) ltac:(discriminate)
              eq_refl)))))).
Defined.
